(** * node-class-vs-factory: the numeric state kernel, its three construction
    strategies, the instance population and the snapshot capture protocol

    A shallow embedding of the TypeScript sources.  JavaScript numbers are
    IEEE 754 binary64 values, modelled by the primitive type [float]; where
    the code keeps an integer in a number (hashes, 32-bit generator states,
    lengths, indices, identifiers, timestamps) the model keeps it in [Z] and
    writes every 32-bit conversion out.  Strings are sequences of code units
    below 256.  Arrays are lists, written by index with stdpp's insert. *)

From Stdlib Require Import ZArith Floats String Ascii List Lia Bool.
From Stdlib Require Import DecimalString HexadecimalString.
From stdpp Require Import base list.
Import ListNotations.

Set Warnings "-inexact-float".
Local Open Scope Z_scope.

(** ** The JavaScript primitives the sources use *)
Module JS.

(** ToInt32 and ToUint32 on an integer: wrap modulo 2^32. *)
Definition toUint32 (z : Z) : Z := z mod 4294967296.
Definition toInt32 (z : Z) : Z :=
  let u := toUint32 z in if u <? 2147483648 then u else u - 4294967296.

(** The integer part of a number, rounded toward zero; NaN and the
    infinities give 0, as in ToInt32. *)
Definition truncate (f : float) : Z :=
  match Prim2SF f with
  | S754_finite s m e =>
      let a := Z.shiftl (Z.pos m) e in if s then - a else a
  | _ => 0
  end.

(** [f | 0] on a number. *)
Definition toInt32F (f : float) : Z := toInt32 (truncate f).

(** An integer held in a number, as a float (exact below 2^53). *)
Definition ofZ (z : Z) : float :=
  match z with
  | Z0 => 0%float
  | Zpos _ => of_uint63 (Uint63.of_Z z)
  | Zneg p => (- of_uint63 (Uint63.of_Z (Zpos p)))%float
  end.

(** [a ^ b], [a & b], [a << k], [a >>> k], [a | 0], [Math.imul(a, b)]. *)
Definition bxor (a b : Z) : Z := toInt32 (Z.lxor (toInt32 a) (toInt32 b)).
Definition band (a b : Z) : Z := toInt32 (Z.land (toInt32 a) (toInt32 b)).
Definition shl (a k : Z) : Z := toInt32 (Z.shiftl (toInt32 a) (k mod 32)).
Definition ushr (a k : Z) : Z := Z.shiftr (toUint32 a) (k mod 32).
Definition bor0 (a : Z) : Z := toInt32 a.
Definition imul (a b : Z) : Z := toInt32 (toInt32 a * toInt32 b).

(** [Math.min] and [Math.max] on numbers: NaN when an argument is NaN, and
    of two zeros the negative one is the smaller. *)
Definition Math_min (a b : float) : float :=
  if is_nan a || is_nan b then nan
  else if (b <=? a)%float
       then (if (a <=? b)%float then (if get_sign a then a else b) else b)
       else a.
Definition Math_max (a b : float) : float :=
  if is_nan a || is_nan b then nan
  else if (a <=? b)%float
       then (if (b <=? a)%float then (if get_sign a then b else a) else b)
       else a.

(** An array read [a[i]]; a read out of range gives undefined, which is NaN
    in arithmetic. *)
Definition get (a : list float) (i : nat) : float :=
  match a !! i with Some v => v | None => nan end.

(** [new Array(n)]: n slots, each written before it is read. *)
Definition newArray (n : nat) : list float := replicate n nan.

(** [for (let i = from; i < from + count; i++) body]. *)
Fixpoint for_loop {St : Type} (from count : nat) (body : nat -> St -> St)
    (s : St) : St :=
  match count with
  | O => s
  | S c => for_loop (S from) c body (body from s)
  end.

(** The decimal text of an integer, every digit of it ([`${n}`] on an
    integer below 2^53 in magnitude, as an array length or a 32-bit integer
    is), and the lower-case hexadecimal text of a natural number
    ([n.toString(16)]). *)
Definition decimal (z : Z) : string :=
  DecimalString.NilZero.string_of_int (Z.to_int z).
Definition hex (n : N) : string :=
  HexadecimalString.NilZero.string_of_uint (N.to_hex_uint n).

(** [`${x}`] on a number [x] holding an integer (Number::toString).  Below
    2^53 in magnitude every digit is printed.  From 2^53 on, the number is
    [m * 2^e] with [2^52 <= m < 2^53], and the reals that round to it lie
    between the midpoints to its two neighbours, the midpoints included
    when [m] is even: [roundsTo a c] tells whether the integer [c] rounds
    to the number [a].  The digits printed are the fewest that read back as
    the same number: [shortestDigits] finds the greatest [j] for which a
    multiple of [10^j] rounds to the number, and of the two multiples
    around the number the closer one (on a tie the one with the even last
    digit).  Up to 21 digits the text is the digits followed by zeros; a
    longer one is written with an exponent. *)
Definition roundsTo (a c : Z) : bool :=
  let e := Z.log2 a - 52 in
  let m := Z.shiftr a e in
  let up := 2 ^ e in
  let down := if m =? 4503599627370496 then 2 ^ (e - 1) else 2 ^ e in
  if Z.even m
  then (2 * a - down <=? 2 * c) && (2 * c <=? 2 * a + up)
  else (2 * a - down <? 2 * c) && (2 * c <? 2 * a + up).

Fixpoint shortestDigits (a : Z) (j : nat) : Z * nat :=
  let p := 10 ^ Z.of_nat j in
  let lo := a / p * p in
  let hi := lo + p in
  let found :=
    match roundsTo a lo, roundsTo a hi with
    | true, true =>
        if a - lo <? hi - a then Some lo
        else if hi - a <? a - lo then Some hi
        else if Z.even (lo / p) then Some lo else Some hi
    | true, false => Some lo
    | false, true => Some hi
    | false, false => None
    end in
  match found, j with
  | Some c, _ => (c, j)
  | None, S j' => shortestDigits a j'
  | None, O => (a, O)
  end.

Definition numberToString (z : Z) : string :=
  let a := Z.abs z in
  if a <? 9007199254740992 then decimal z
  else
    let '(c, j) := shortestDigits a (Z.to_nat (Z.log2 a / 3 + 1)) in
    let digits := decimal c in
    let n := String.length digits in
    let text :=
      if (n <=? 21)%nat then digits
      else
        match decimal (c / 10 ^ Z.of_nat j) with
        | String d EmptyString =>
            String d ("e+" ++ decimal (Z.of_nat n - 1))
        | String d rest =>
            String d ("." ++ rest ++ "e+" ++ decimal (Z.of_nat n - 1))
        | EmptyString => EmptyString
        end in
    if z <? 0 then "-" ++ text else text.

(** [s.padStart(2, "0")]. *)
Definition padStart2 (s : string) : string :=
  match String.length s with
  | O => "00"
  | S O => "0" ++ s
  | _ => s
  end%string.

(** [s.charCodeAt(i)] for i below the length. *)
Definition charCodeAt (s : string) (i : nat) : Z :=
  match String.get i s with
  | Some c => Z.of_N (N_of_ascii c)
  | None => 0
  end.

(** The line feed that [join("\n")] puts between lines. *)
Definition newline : string := String (ascii_of_nat 10) EmptyString.

(** What the host runtime supplies and the sources only call:
    [Number.prototype.toFixed] (the decimal text of a number with a given
    count of fraction digits) and [Number(s)] (the number a string
    denotes). *)
Class Runtime := {
  toFixed : float -> nat -> string;
  toNumber : string -> float
}.

End JS.

(** ** heavyLogic.ts: the state record and the shared kernel functions *)
Module HeavyLogic.
Import JS.
Local Open Scope float_scope.

Record ThinState := mkThinState {
  id : Z;
  name : string;
  values : list float;
  bias : float;
  scale : float;
  createdAt : Z;
  tag : string
}.

Definition doChecksum (state : ThinState) : Z :=
  let hash := ushr 2166136261 0 in
  let running := 0 in
  let '(hash, running) :=
    for_loop 0 (length (values state)) (fun i '(hash, running) =>
      let raw := get (values state) i in
      let transformed := raw * scale state + bias state in
      let running := running + transformed in
      let hash := bxor hash (toInt32F (transformed * 1000003)) in
      let hash := imul hash 16777619 in
      let hash := ushr hash 0 in
      (hash, running)) (hash, running) in
  let hash := bxor hash (bor0 (id state)) in
  let hash := ushr (imul hash 16777619) 0 in
  let hash := bxor hash (bor0 (Z.of_nat (String.length (name state)))) in
  let hash := ushr (imul hash 16777619) 0 in
  let ts := bor0 (createdAt state) in
  let hash := bxor hash ts in
  let hash := ushr (imul hash 2246822519) 0 in
  let hash :=
    for_loop 0 (String.length (tag state)) (fun i hash =>
      let hash := bxor hash (bor0 (charCodeAt (tag state) i)) in
      let hash := ushr (hash + bor0 (shl hash 13)) 0 in
      let hash := bxor hash (ushr hash 7) in
      hash) hash in
  let hash := bxor hash (ushr hash 16) in
  let hash := ushr (imul hash 2246822507) 0 in
  let hash := bxor hash (ushr hash 13) in
  let hash := ushr (imul hash 3266489909) 0 in
  let hash := bxor hash (ushr hash 16) in
  bor0 hash.

Definition doNormalizeInPlace (state : ThinState) : ThinState :=
  let n := length (values state) in
  let sum :=
    for_loop 0 n (fun i sum => sum + get (values state) i) 0 in
  let mean := if (0 <? n)%nat then sum / ofZ (Z.of_nat n) else 0 in
  let sq :=
    for_loop 0 n (fun i sq =>
      let d := get (values state) i - mean in
      sq + d * d) 0 in
  let variance :=
    if (1 <? n)%nat then sq / ofZ (Z.of_nat n - 1) else 0 in
  let std := if 0 <? variance then sqrt variance else 1 in
  let epsilon := 1e-6 in
  let vals :=
    for_loop 0 n (fun i vals =>
      let centered := get vals i - mean in
      let normalized := centered / (std + epsilon) in
      let clamped := Math_max (-8) (Math_min 8 normalized) in
      <[i := clamped]> vals) (values state) in
  {| id := id state; name := name state; values := vals;
     bias := bias state * 0.9 + mean * 0.1;
     scale := scale state * 0.9 + (1 / (std + epsilon)) * 0.1;
     createdAt := createdAt state; tag := tag state |}.

(** The window [doRollingAverage] uses:
    [Math.max(1, Math.min(windowSize | 0, Math.max(1, n)))]. *)
Definition effectiveWindow (n : nat) (windowSize : float) : Z :=
  Z.max 1 (Z.min (toInt32F windowSize) (Z.max 1 (Z.of_nat n))).

Definition doRollingAverage (state : ThinState) (windowSize : float)
    : list float :=
  let n := length (values state) in
  let w := Z.to_nat (effectiveWindow n windowSize) in
  let output := newArray n in
  let running := 0 in
  let '(output, running) :=
    for_loop 0 n (fun i '(output, running) =>
      let running := running + get (values state) i in
      let running :=
        if (w <=? i)%nat then running - get (values state) (i - w)
        else running in
      let count := if (i + 1 <? w)%nat then (i + 1)%nat else w in
      (<[i := running / ofZ (Z.of_nat count)]> output, running))
      (output, running) in
  for_loop 0 n (fun i output =>
    let v := get output i in
    let adjusted := v * scale state + bias state * 0.001 in
    <[i := adjusted]> output) output.

Section Formatting.
Context {rt : Runtime}.

Definition doFormatSummary (state : ThinState) : string :=
  let '(min, max, sum) :=
    for_loop 0 (length (values state)) (fun i '(min, max, sum) =>
      let v := get (values state) i in
      let min := if v <? min then v else min in
      let max := if max <? v then v else max in
      (min, max, sum + v)) (infinity, neg_infinity, 0) in
  let mean :=
    if (0 <? length (values state))%nat
    then sum / ofZ (Z.of_nat (length (values state))) else 0 in
  let lines := [] in
  let lines := lines ++ [("id=" ++ numberToString (id state))%string] in
  let lines := lines ++ [("name=" ++ name state)%string] in
  let lines := lines ++ [("tag=" ++ tag state)%string] in
  let lines :=
    lines ++ [("len=" ++ decimal (Z.of_nat (length (values state))))%string] in
  let lines := lines ++ [("bias=" ++ toFixed (bias state) 6)%string] in
  let lines := lines ++ [("scale=" ++ toFixed (scale state) 6)%string] in
  let lines := lines ++ [("min=" ++ toFixed min 6)%string] in
  let lines := lines ++ [("max=" ++ toFixed max 6)%string] in
  let lines := lines ++ [("mean=" ++ toFixed mean 6)%string] in
  let ck := doChecksum state in
  let lines := lines ++ [("checksum=" ++ decimal ck)%string] in
  let decorated :=
    imap (fun i s => (padStart2 (hex (N.of_nat i)) ++ "|" ++ s)%string)
      lines in
  String.concat newline decorated.

End Formatting.

Definition doScramble (state : ThinState) (seed : float) : ThinState :=
  let x := if (toInt32F seed =? 0)%Z then 2463534242%Z else toInt32F seed in
  let x :=
    for_loop 0 8 (fun k x =>
      let x := bxor x (shl x 13) in
      let x := bxor x (ushr x 17) in
      let x := bxor x (shl x 5) in
      let x := bor0 x in
      x) x in
  let '(x, vals) :=
    for_loop 0 (length (values state)) (fun i '(x, vals) =>
      let x := bxor x (shl x 13) in
      let x := bxor x (ushr x 17) in
      let x := bxor x (shl x 5) in
      let x := bor0 x in
      let rnd := ofZ (ushr x 0) / 4294967295 in
      let v := get vals i in
      let sign := if (band x 1 =? 0)%Z then 1 else -1 in
      let delta := sign * (rnd * 0.01 + ofZ (Z.of_nat i mod 7) * 0.0001) in
      (x, <[i := v + delta]> vals)) (x, values state) in
  {| id := id state; name := name state; values := vals;
     bias := bias state + ofZ (band x 255 - 128) * 1e-6;
     scale := scale state * (1 + ofZ (band (ushr x 8) 255 - 128) * 1e-6);
     createdAt := createdAt state; tag := tag state |}.

(** Returns the energy and the state left behind. *)
Definition doSimulate (state : ThinState) (iterations : float)
    : float * ThinState :=
  let steps := Z.max 1 (toInt32F iterations) in
  let n := length (values state) in
  if (n =? 0)%nat then (0, state) else
  let temp := newArray n in
  let '(vals, temp) :=
    for_loop 0 (Z.to_nat steps) (fun it '(vals, temp) =>
      let temp :=
        for_loop 0 n (fun i temp =>
          let left := if (0 <? i)%nat then get vals (i - 1) else get vals i in
          let center := get vals i in
          let right :=
            if (i + 1 <? n)%nat then get vals (i + 1) else get vals i in
          let target := (left + center + right) / 3 in
          let next := center + (target - center) * 0.25 in
          <[i := next * scale state + bias state * 0.0001]> temp) temp in
      let vals :=
        for_loop 0 n (fun i vals => <[i := get temp i]> vals) vals in
      (vals, temp)) (values state, temp) in
  let energy :=
    for_loop 1 (n - 1) (fun i energy =>
      let d := get vals i - get vals (i - 1) in
      energy + d * d) 0 in
  (energy,
   {| id := id state; name := name state; values := vals;
      bias := bias state; scale := scale state;
      createdAt := createdAt state; tag := tag state |}).

End HeavyLogic.

(** ** heavyClass.ts: the class, its methods shared through the prototype *)
Module HeavyClass.
Import JS.
Local Open Scope float_scope.

Record Meta := mkMeta { createdAt : Z; tag : string }.

Record HeavyThing := mkHeavyThing {
  id : Z;
  name : string;
  values : list float;
  bias : float;
  scale : float;
  meta : Meta
}.

(** [new HeavyThing(id, name, values, bias, scale, tag)]; [now] is what
    [Date.now()] returns during the construction.  [Array.from(values)]
    copies the argument, so the instance shares no array with its caller. *)
Definition new (id : Z) (name : string) (values : list float)
    (bias scale : float) (tag : string) (now : Z) : HeavyThing :=
  {| id := id; name := name; values := values; bias := bias; scale := scale;
     meta := {| createdAt := now; tag := tag |} |}.

Definition checksum (this : HeavyThing) : Z :=
  let hash := ushr 2166136261 0 in
  let running := 0 in
  let '(hash, running) :=
    for_loop 0 (length (values this)) (fun i '(hash, running) =>
      let raw := get (values this) i in
      let transformed := raw * scale this + bias this in
      let running := running + transformed in
      let hash := bxor hash (toInt32F (transformed * 1000003)) in
      let hash := imul hash 16777619 in
      let hash := ushr hash 0 in
      (hash, running)) (hash, running) in
  let hash := bxor hash (bor0 (id this)) in
  let hash := ushr (imul hash 16777619) 0 in
  let hash := bxor hash (bor0 (Z.of_nat (String.length (name this)))) in
  let hash := ushr (imul hash 16777619) 0 in
  let ts := bor0 (createdAt (meta this)) in
  let hash := bxor hash ts in
  let hash := ushr (imul hash 2246822519) 0 in
  let hash :=
    for_loop 0 (String.length (tag (meta this))) (fun i hash =>
      let hash := bxor hash (bor0 (charCodeAt (tag (meta this)) i)) in
      let hash := ushr (hash + bor0 (shl hash 13)) 0 in
      let hash := bxor hash (ushr hash 7) in
      hash) hash in
  let hash := bxor hash (ushr hash 16) in
  let hash := ushr (imul hash 2246822507) 0 in
  let hash := bxor hash (ushr hash 13) in
  let hash := ushr (imul hash 3266489909) 0 in
  let hash := bxor hash (ushr hash 16) in
  bor0 hash.

Definition normalizeInPlace (this : HeavyThing) : HeavyThing :=
  let n := length (values this) in
  let sum :=
    for_loop 0 n (fun i sum => sum + get (values this) i) 0 in
  let mean := if (0 <? n)%nat then sum / ofZ (Z.of_nat n) else 0 in
  let sq :=
    for_loop 0 n (fun i sq =>
      let d := get (values this) i - mean in
      sq + d * d) 0 in
  let variance :=
    if (1 <? n)%nat then sq / ofZ (Z.of_nat n - 1) else 0 in
  let std := if 0 <? variance then sqrt variance else 1 in
  let epsilon := 1e-6 in
  let vals :=
    for_loop 0 n (fun i vals =>
      let centered := get vals i - mean in
      let normalized := centered / (std + epsilon) in
      let clamped := Math_max (-8) (Math_min 8 normalized) in
      <[i := clamped]> vals) (values this) in
  {| id := id this; name := name this; values := vals;
     bias := bias this * 0.9 + mean * 0.1;
     scale := scale this * 0.9 + (1 / (std + epsilon)) * 0.1;
     meta := meta this |}.

Definition rollingAverage (this : HeavyThing) (windowSize : float)
    : list float :=
  let n := length (values this) in
  let w :=
    Z.to_nat
      (Z.max 1 (Z.min (toInt32F windowSize) (Z.max 1 (Z.of_nat n)))) in
  let output := newArray n in
  let running := 0 in
  let '(output, running) :=
    for_loop 0 n (fun i '(output, running) =>
      let running := running + get (values this) i in
      let running :=
        if (w <=? i)%nat then running - get (values this) (i - w)
        else running in
      let count := if (i + 1 <? w)%nat then (i + 1)%nat else w in
      (<[i := running / ofZ (Z.of_nat count)]> output, running))
      (output, running) in
  for_loop 0 n (fun i output =>
    let v := get output i in
    let adjusted := v * scale this + bias this * 0.001 in
    <[i := adjusted]> output) output.

Section Formatting.
Context {rt : Runtime}.

Definition formatSummary (this : HeavyThing) : string :=
  let '(min, max, sum) :=
    for_loop 0 (length (values this)) (fun i '(min, max, sum) =>
      let v := get (values this) i in
      let min := if v <? min then v else min in
      let max := if max <? v then v else max in
      (min, max, sum + v)) (infinity, neg_infinity, 0) in
  let mean :=
    if (0 <? length (values this))%nat
    then sum / ofZ (Z.of_nat (length (values this))) else 0 in
  let lines := [] in
  let lines := lines ++ [("id=" ++ numberToString (id this))%string] in
  let lines := lines ++ [("name=" ++ name this)%string] in
  let lines := lines ++ [("tag=" ++ tag (meta this))%string] in
  let lines :=
    lines ++ [("len=" ++ decimal (Z.of_nat (length (values this))))%string] in
  let lines := lines ++ [("bias=" ++ toFixed (bias this) 6)%string] in
  let lines := lines ++ [("scale=" ++ toFixed (scale this) 6)%string] in
  let lines := lines ++ [("min=" ++ toFixed min 6)%string] in
  let lines := lines ++ [("max=" ++ toFixed max 6)%string] in
  let lines := lines ++ [("mean=" ++ toFixed mean 6)%string] in
  let ck := checksum this in
  let lines := lines ++ [("checksum=" ++ decimal ck)%string] in
  let decorated :=
    imap (fun i s => (padStart2 (hex (N.of_nat i)) ++ "|" ++ s)%string)
      lines in
  String.concat newline decorated.

End Formatting.

Definition scramble (this : HeavyThing) (seed : float) : HeavyThing :=
  let x := if (toInt32F seed =? 0)%Z then 2463534242%Z else toInt32F seed in
  let x :=
    for_loop 0 8 (fun k x =>
      let x := bxor x (shl x 13) in
      let x := bxor x (ushr x 17) in
      let x := bxor x (shl x 5) in
      let x := bor0 x in
      x) x in
  let '(x, vals) :=
    for_loop 0 (length (values this)) (fun i '(x, vals) =>
      let x := bxor x (shl x 13) in
      let x := bxor x (ushr x 17) in
      let x := bxor x (shl x 5) in
      let x := bor0 x in
      let rnd := ofZ (ushr x 0) / 4294967295 in
      let v := get vals i in
      let sign := if (band x 1 =? 0)%Z then 1 else -1 in
      let delta := sign * (rnd * 0.01 + ofZ (Z.of_nat i mod 7) * 0.0001) in
      (x, <[i := v + delta]> vals)) (x, values this) in
  {| id := id this; name := name this; values := vals;
     bias := bias this + ofZ (band x 255 - 128) * 1e-6;
     scale := scale this * (1 + ofZ (band (ushr x 8) 255 - 128) * 1e-6);
     meta := meta this |}.

(** Returns the energy and the instance state left behind. *)
Definition simulate (this : HeavyThing) (iterations : float)
    : float * HeavyThing :=
  let steps := Z.max 1 (toInt32F iterations) in
  let n := length (values this) in
  if (n =? 0)%nat then (0, this) else
  let temp := newArray n in
  let '(vals, temp) :=
    for_loop 0 (Z.to_nat steps) (fun it '(vals, temp) =>
      let temp :=
        for_loop 0 n (fun i temp =>
          let left := if (0 <? i)%nat then get vals (i - 1) else get vals i in
          let center := get vals i in
          let right :=
            if (i + 1 <? n)%nat then get vals (i + 1) else get vals i in
          let target := (left + center + right) / 3 in
          let next := center + (target - center) * 0.25 in
          <[i := next * scale this + bias this * 0.0001]> temp) temp in
      let vals :=
        for_loop 0 n (fun i vals => <[i := get temp i]> vals) vals in
      (vals, temp)) (values this, temp) in
  let energy :=
    for_loop 1 (n - 1) (fun i energy =>
      let d := get vals i - get vals (i - 1) in
      energy + d * d) 0 in
  (energy,
   {| id := id this; name := name this; values := vals;
     bias := bias this;
     scale := scale this;
     meta := meta this |}).

End HeavyClass.

(** ** heavyFactory.ts: the interface, and the factory whose methods are
    closures over the variables of one call *)
Module HeavyFactory.
Import JS.
Local Open Scope float_scope.

(** The public surface every strategy offers, over the state [T] an
    instance owns; a method that assigns to the state returns the state it
    leaves. *)
Class HeavyThingLike (T : Type) := {
  get_id : T -> Z;
  get_name : T -> string;
  set_name : T -> string -> T;
  call_checksum : T -> Z;
  call_normalizeInPlace : T -> T;
  call_rollingAverage : T -> float -> list float;
  call_formatSummary : T -> string;
  call_scramble : T -> float -> T;
  call_simulate : T -> float -> float * T
}.

Record Meta := mkMeta { createdAt : Z; tag : string }.

(** The variables one call of [createHeavyThing] declares and its closures
    capture. *)
Record Closure := mkClosure {
  _id : Z;
  _name : string;
  _values : list float;
  _bias : float;
  _scale : float;
  _meta : Meta
}.

Definition checksum (env : Closure) : Z :=
  let hash := ushr 2166136261 0 in
  let running := 0 in
  let '(hash, running) :=
    for_loop 0 (length (_values env)) (fun i '(hash, running) =>
      let raw := get (_values env) i in
      let transformed := raw * _scale env + _bias env in
      let running := running + transformed in
      let hash := bxor hash (toInt32F (transformed * 1000003)) in
      let hash := imul hash 16777619 in
      let hash := ushr hash 0 in
      (hash, running)) (hash, running) in
  let hash := bxor hash (bor0 (_id env)) in
  let hash := ushr (imul hash 16777619) 0 in
  let hash := bxor hash (bor0 (Z.of_nat (String.length (_name env)))) in
  let hash := ushr (imul hash 16777619) 0 in
  let ts := bor0 (createdAt (_meta env)) in
  let hash := bxor hash ts in
  let hash := ushr (imul hash 2246822519) 0 in
  let hash :=
    for_loop 0 (String.length (tag (_meta env))) (fun i hash =>
      let hash := bxor hash (bor0 (charCodeAt (tag (_meta env)) i)) in
      let hash := ushr (hash + bor0 (shl hash 13)) 0 in
      let hash := bxor hash (ushr hash 7) in
      hash) hash in
  let hash := bxor hash (ushr hash 16) in
  let hash := ushr (imul hash 2246822507) 0 in
  let hash := bxor hash (ushr hash 13) in
  let hash := ushr (imul hash 3266489909) 0 in
  let hash := bxor hash (ushr hash 16) in
  bor0 hash.

Definition normalizeInPlace (env : Closure) : Closure :=
  let n := length (_values env) in
  let sum :=
    for_loop 0 n (fun i sum => sum + get (_values env) i) 0 in
  let mean := if (0 <? n)%nat then sum / ofZ (Z.of_nat n) else 0 in
  let sq :=
    for_loop 0 n (fun i sq =>
      let d := get (_values env) i - mean in
      sq + d * d) 0 in
  let variance :=
    if (1 <? n)%nat then sq / ofZ (Z.of_nat n - 1) else 0 in
  let std := if 0 <? variance then sqrt variance else 1 in
  let epsilon := 1e-6 in
  let vals :=
    for_loop 0 n (fun i vals =>
      let centered := get vals i - mean in
      let normalized := centered / (std + epsilon) in
      let clamped := Math_max (-8) (Math_min 8 normalized) in
      <[i := clamped]> vals) (_values env) in
  {| _id := _id env; _name := _name env; _values := vals;
     _bias := _bias env * 0.9 + mean * 0.1;
     _scale := _scale env * 0.9 + (1 / (std + epsilon)) * 0.1;
     _meta := _meta env |}.

Definition rollingAverage (env : Closure) (windowSize : float)
    : list float :=
  let n := length (_values env) in
  let w :=
    Z.to_nat
      (Z.max 1 (Z.min (toInt32F windowSize) (Z.max 1 (Z.of_nat n)))) in
  let output := newArray n in
  let running := 0 in
  let '(output, running) :=
    for_loop 0 n (fun i '(output, running) =>
      let running := running + get (_values env) i in
      let running :=
        if (w <=? i)%nat then running - get (_values env) (i - w)
        else running in
      let count := if (i + 1 <? w)%nat then (i + 1)%nat else w in
      (<[i := running / ofZ (Z.of_nat count)]> output, running))
      (output, running) in
  for_loop 0 n (fun i output =>
    let v := get output i in
    let adjusted := v * _scale env + _bias env * 0.001 in
    <[i := adjusted]> output) output.

Section Formatting.
Context {rt : Runtime}.

Definition formatSummary (env : Closure) : string :=
  let '(min, max, sum) :=
    for_loop 0 (length (_values env)) (fun i '(min, max, sum) =>
      let v := get (_values env) i in
      let min := if v <? min then v else min in
      let max := if max <? v then v else max in
      (min, max, sum + v)) (infinity, neg_infinity, 0) in
  let mean :=
    if (0 <? length (_values env))%nat
    then sum / ofZ (Z.of_nat (length (_values env))) else 0 in
  let lines := [] in
  let lines := lines ++ [("id=" ++ numberToString (_id env))%string] in
  let lines := lines ++ [("name=" ++ _name env)%string] in
  let lines := lines ++ [("tag=" ++ tag (_meta env))%string] in
  let lines :=
    lines ++ [("len=" ++ decimal (Z.of_nat (length (_values env))))%string] in
  let lines := lines ++ [("bias=" ++ toFixed (_bias env) 6)%string] in
  let lines := lines ++ [("scale=" ++ toFixed (_scale env) 6)%string] in
  let lines := lines ++ [("min=" ++ toFixed min 6)%string] in
  let lines := lines ++ [("max=" ++ toFixed max 6)%string] in
  let lines := lines ++ [("mean=" ++ toFixed mean 6)%string] in
  let ck := checksum env in
  let lines := lines ++ [("checksum=" ++ decimal ck)%string] in
  let decorated :=
    imap (fun i s => (padStart2 (hex (N.of_nat i)) ++ "|" ++ s)%string)
      lines in
  String.concat newline decorated.

End Formatting.

Definition scramble (env : Closure) (seed : float) : Closure :=
  let x := if (toInt32F seed =? 0)%Z then 2463534242%Z else toInt32F seed in
  let x :=
    for_loop 0 8 (fun k x =>
      let x := bxor x (shl x 13) in
      let x := bxor x (ushr x 17) in
      let x := bxor x (shl x 5) in
      let x := bor0 x in
      x) x in
  let '(x, vals) :=
    for_loop 0 (length (_values env)) (fun i '(x, vals) =>
      let x := bxor x (shl x 13) in
      let x := bxor x (ushr x 17) in
      let x := bxor x (shl x 5) in
      let x := bor0 x in
      let rnd := ofZ (ushr x 0) / 4294967295 in
      let v := get vals i in
      let sign := if (band x 1 =? 0)%Z then 1 else -1 in
      let delta := sign * (rnd * 0.01 + ofZ (Z.of_nat i mod 7) * 0.0001) in
      (x, <[i := v + delta]> vals)) (x, _values env) in
  {| _id := _id env; _name := _name env; _values := vals;
     _bias := _bias env + ofZ (band x 255 - 128) * 1e-6;
     _scale := _scale env * (1 + ofZ (band (ushr x 8) 255 - 128) * 1e-6);
     _meta := _meta env |}.

(** Returns the energy and the instance state left behind. *)
Definition simulate (env : Closure) (iterations : float)
    : float * Closure :=
  let steps := Z.max 1 (toInt32F iterations) in
  let n := length (_values env) in
  if (n =? 0)%nat then (0, env) else
  let temp := newArray n in
  let '(vals, temp) :=
    for_loop 0 (Z.to_nat steps) (fun it '(vals, temp) =>
      let temp :=
        for_loop 0 n (fun i temp =>
          let left := if (0 <? i)%nat then get vals (i - 1) else get vals i in
          let center := get vals i in
          let right :=
            if (i + 1 <? n)%nat then get vals (i + 1) else get vals i in
          let target := (left + center + right) / 3 in
          let next := center + (target - center) * 0.25 in
          <[i := next * _scale env + _bias env * 0.0001]> temp) temp in
      let vals :=
        for_loop 0 n (fun i vals => <[i := get temp i]> vals) vals in
      (vals, temp)) (_values env, temp) in
  let energy :=
    for_loop 1 (n - 1) (fun i energy =>
      let d := get vals i - get vals (i - 1) in
      energy + d * d) 0 in
  (energy,
   {| _id := _id env; _name := _name env; _values := vals;
     _bias := _bias env;
     _scale := _scale env;
     _meta := _meta env |}).

(** [createHeavyThing(id, name, values, bias, scale, tag)], with [now] the
    value of [Date.now()] during the call. *)
Definition createHeavyThing (id : Z) (name : string) (values : list float)
    (bias scale : float) (tag : string) (now : Z) : Closure :=
  {| _id := id; _name := name; _values := values; _bias := bias;
     _scale := scale; _meta := {| createdAt := now; tag := tag |} |}.

(** The object [createHeavyThing] returns. *)
#[export] Instance closure_like {rt : Runtime} : HeavyThingLike Closure := {
  get_id env := _id env;
  get_name env := _name env;
  set_name env v :=
    {| _id := _id env; _name := v; _values := _values env;
       _bias := _bias env; _scale := _scale env; _meta := _meta env |};
  call_checksum := checksum;
  call_normalizeInPlace := normalizeInPlace;
  call_rollingAverage := rollingAverage;
  call_formatSummary := formatSummary;
  call_scramble := scramble;
  call_simulate := simulate
}.

End HeavyFactory.

(** ** heavyFactoryThin.ts: small wrappers that pass the state record to the
    shared kernel functions *)
Module HeavyFactoryThin.
Import JS HeavyLogic HeavyFactory.

(** [createHeavyThingThin(id, name, values, bias, scale, tag)], with [now]
    the value of [Date.now()] during the call. *)
Definition createHeavyThingThin (id : Z) (name : string)
    (values : list float) (bias scale : float) (tag : string) (now : Z)
    : ThinState :=
  {| HeavyLogic.id := id; name := name; values := values; bias := bias;
     scale := scale; HeavyLogic.createdAt := now; HeavyLogic.tag := tag |}.

(** The object [createHeavyThingThin] returns. *)
#[export] Instance thin_like {rt : Runtime} : HeavyThingLike ThinState := {
  get_id state := HeavyLogic.id state;
  get_name state := name state;
  set_name state v :=
    {| HeavyLogic.id := HeavyLogic.id state; name := v;
       values := values state; bias := bias state; scale := scale state;
       HeavyLogic.createdAt := HeavyLogic.createdAt state;
       HeavyLogic.tag := HeavyLogic.tag state |};
  call_checksum state := doChecksum state;
  call_normalizeInPlace state := doNormalizeInPlace state;
  call_rollingAverage state windowSize := doRollingAverage state windowSize;
  call_formatSummary state := doFormatSummary state;
  call_scramble state seed := doScramble state seed;
  call_simulate state iterations := doSimulate state iterations
}.

End HeavyFactoryThin.

(** ** heavyFactoryPrototype.ts: state fields as own properties of an object
    whose prototype holds the methods *)
Module HeavyFactoryPrototype.
Import JS.
Local Open Scope float_scope.

Record State := mkState {
  id : Z;
  name : string;
  values : list float;
  bias : float;
  scale : float;
  createdAt : Z;
  tag : string
}.

Definition checksum (this : State) : Z :=
  let hash := ushr 2166136261 0 in
  let running := 0 in
  let '(hash, running) :=
    for_loop 0 (length (values this)) (fun i '(hash, running) =>
      let raw := get (values this) i in
      let transformed := raw * scale this + bias this in
      let running := running + transformed in
      let hash := bxor hash (toInt32F (transformed * 1000003)) in
      let hash := imul hash 16777619 in
      let hash := ushr hash 0 in
      (hash, running)) (hash, running) in
  let hash := bxor hash (bor0 (id this)) in
  let hash := ushr (imul hash 16777619) 0 in
  let hash := bxor hash (bor0 (Z.of_nat (String.length (name this)))) in
  let hash := ushr (imul hash 16777619) 0 in
  let ts := bor0 (createdAt this) in
  let hash := bxor hash ts in
  let hash := ushr (imul hash 2246822519) 0 in
  let hash :=
    for_loop 0 (String.length (tag this)) (fun i hash =>
      let hash := bxor hash (bor0 (charCodeAt (tag this) i)) in
      let hash := ushr (hash + bor0 (shl hash 13)) 0 in
      let hash := bxor hash (ushr hash 7) in
      hash) hash in
  let hash := bxor hash (ushr hash 16) in
  let hash := ushr (imul hash 2246822507) 0 in
  let hash := bxor hash (ushr hash 13) in
  let hash := ushr (imul hash 3266489909) 0 in
  let hash := bxor hash (ushr hash 16) in
  bor0 hash.

Definition normalizeInPlace (this : State) : State :=
  let n := length (values this) in
  let sum :=
    for_loop 0 n (fun i sum => sum + get (values this) i) 0 in
  let mean := if (0 <? n)%nat then sum / ofZ (Z.of_nat n) else 0 in
  let sq :=
    for_loop 0 n (fun i sq =>
      let d := get (values this) i - mean in
      sq + d * d) 0 in
  let variance :=
    if (1 <? n)%nat then sq / ofZ (Z.of_nat n - 1) else 0 in
  let std := if 0 <? variance then sqrt variance else 1 in
  let epsilon := 1e-6 in
  let vals :=
    for_loop 0 n (fun i vals =>
      let centered := get vals i - mean in
      let normalized := centered / (std + epsilon) in
      let clamped := Math_max (-8) (Math_min 8 normalized) in
      <[i := clamped]> vals) (values this) in
  {| id := id this; name := name this; values := vals;
     bias := bias this * 0.9 + mean * 0.1;
     scale := scale this * 0.9 + (1 / (std + epsilon)) * 0.1;
     createdAt := createdAt this; tag := tag this |}.

Definition rollingAverage (this : State) (windowSize : float)
    : list float :=
  let n := length (values this) in
  let w :=
    Z.to_nat
      (Z.max 1 (Z.min (toInt32F windowSize) (Z.max 1 (Z.of_nat n)))) in
  let output := newArray n in
  let running := 0 in
  let '(output, running) :=
    for_loop 0 n (fun i '(output, running) =>
      let running := running + get (values this) i in
      let running :=
        if (w <=? i)%nat then running - get (values this) (i - w)
        else running in
      let count := if (i + 1 <? w)%nat then (i + 1)%nat else w in
      (<[i := running / ofZ (Z.of_nat count)]> output, running))
      (output, running) in
  for_loop 0 n (fun i output =>
    let v := get output i in
    let adjusted := v * scale this + bias this * 0.001 in
    <[i := adjusted]> output) output.

Section Formatting.
Context {rt : Runtime}.

Definition formatSummary (this : State) : string :=
  let '(min, max, sum) :=
    for_loop 0 (length (values this)) (fun i '(min, max, sum) =>
      let v := get (values this) i in
      let min := if v <? min then v else min in
      let max := if max <? v then v else max in
      (min, max, sum + v)) (infinity, neg_infinity, 0) in
  let mean :=
    if (0 <? length (values this))%nat
    then sum / ofZ (Z.of_nat (length (values this))) else 0 in
  let lines := [] in
  let lines := lines ++ [("id=" ++ numberToString (id this))%string] in
  let lines := lines ++ [("name=" ++ name this)%string] in
  let lines := lines ++ [("tag=" ++ tag this)%string] in
  let lines :=
    lines ++ [("len=" ++ decimal (Z.of_nat (length (values this))))%string] in
  let lines := lines ++ [("bias=" ++ toFixed (bias this) 6)%string] in
  let lines := lines ++ [("scale=" ++ toFixed (scale this) 6)%string] in
  let lines := lines ++ [("min=" ++ toFixed min 6)%string] in
  let lines := lines ++ [("max=" ++ toFixed max 6)%string] in
  let lines := lines ++ [("mean=" ++ toFixed mean 6)%string] in
  let ck := checksum this in
  let lines := lines ++ [("checksum=" ++ decimal ck)%string] in
  let decorated :=
    imap (fun i s => (padStart2 (hex (N.of_nat i)) ++ "|" ++ s)%string)
      lines in
  String.concat newline decorated.

End Formatting.

Definition scramble (this : State) (seed : float) : State :=
  let x := if (toInt32F seed =? 0)%Z then 2463534242%Z else toInt32F seed in
  let x :=
    for_loop 0 8 (fun k x =>
      let x := bxor x (shl x 13) in
      let x := bxor x (ushr x 17) in
      let x := bxor x (shl x 5) in
      let x := bor0 x in
      x) x in
  let '(x, vals) :=
    for_loop 0 (length (values this)) (fun i '(x, vals) =>
      let x := bxor x (shl x 13) in
      let x := bxor x (ushr x 17) in
      let x := bxor x (shl x 5) in
      let x := bor0 x in
      let rnd := ofZ (ushr x 0) / 4294967295 in
      let v := get vals i in
      let sign := if (band x 1 =? 0)%Z then 1 else -1 in
      let delta := sign * (rnd * 0.01 + ofZ (Z.of_nat i mod 7) * 0.0001) in
      (x, <[i := v + delta]> vals)) (x, values this) in
  {| id := id this; name := name this; values := vals;
     bias := bias this + ofZ (band x 255 - 128) * 1e-6;
     scale := scale this * (1 + ofZ (band (ushr x 8) 255 - 128) * 1e-6);
     createdAt := createdAt this; tag := tag this |}.

(** Returns the energy and the instance state left behind. *)
Definition simulate (this : State) (iterations : float)
    : float * State :=
  let steps := Z.max 1 (toInt32F iterations) in
  let n := length (values this) in
  if (n =? 0)%nat then (0, this) else
  let temp := newArray n in
  let '(vals, temp) :=
    for_loop 0 (Z.to_nat steps) (fun it '(vals, temp) =>
      let temp :=
        for_loop 0 n (fun i temp =>
          let left := if (0 <? i)%nat then get vals (i - 1) else get vals i in
          let center := get vals i in
          let right :=
            if (i + 1 <? n)%nat then get vals (i + 1) else get vals i in
          let target := (left + center + right) / 3 in
          let next := center + (target - center) * 0.25 in
          <[i := next * scale this + bias this * 0.0001]> temp) temp in
      let vals :=
        for_loop 0 n (fun i vals => <[i := get temp i]> vals) vals in
      (vals, temp)) (values this, temp) in
  let energy :=
    for_loop 1 (n - 1) (fun i energy =>
      let d := get vals i - get vals (i - 1) in
      energy + d * d) 0 in
  (energy,
   {| id := id this; name := name this; values := vals;
      bias := bias this; scale := scale this;
      createdAt := createdAt this; tag := tag this |}).

(** [createHeavyThingPrototype(id, name, values, bias, scale, tag)]:
    [withPrototype] copies the fields of [state] onto a fresh object whose
    prototype is the method table. *)
Definition createHeavyThingPrototype (id : Z) (name : string)
    (values : list float) (bias scale : float) (tag : string) (now : Z)
    : State :=
  {| id := id; name := name; values := values; bias := bias; scale := scale;
     createdAt := now; tag := tag |}.

(** The object [createHeavyThingPrototype] returns: the state fields are
    its own properties, so [name] is read and assigned directly, and the
    methods come from the prototype. *)
#[export] Instance prototype_like {rt : Runtime}
    : HeavyFactory.HeavyThingLike State := {
  HeavyFactory.get_id this := id this;
  HeavyFactory.get_name this := name this;
  HeavyFactory.set_name this v :=
    {| id := id this; name := v; values := values this; bias := bias this;
       scale := scale this; createdAt := createdAt this; tag := tag this |};
  HeavyFactory.call_checksum := checksum;
  HeavyFactory.call_normalizeInPlace := normalizeInPlace;
  HeavyFactory.call_rollingAverage := rollingAverage;
  HeavyFactory.call_formatSummary := formatSummary;
  HeavyFactory.call_scramble := scramble;
  HeavyFactory.call_simulate := simulate
}.

End HeavyFactoryPrototype.

(** ** makeInstances.ts: the deterministic population *)
Module MakeInstances.
Import JS HeavyFactory.
Local Open Scope float_scope.

(** [new HeavyThing(...) as unknown as HeavyThingLike]: a class instance
    seen through the interface. *)
#[export] Instance class_like {rt : Runtime}
    : HeavyThingLike HeavyClass.HeavyThing := {
  get_id this := HeavyClass.id this;
  get_name this := HeavyClass.name this;
  set_name this v :=
    {| HeavyClass.id := HeavyClass.id this; HeavyClass.name := v;
       HeavyClass.values := HeavyClass.values this;
       HeavyClass.bias := HeavyClass.bias this;
       HeavyClass.scale := HeavyClass.scale this;
       HeavyClass.meta := HeavyClass.meta this |};
  call_checksum := HeavyClass.checksum;
  call_normalizeInPlace := HeavyClass.normalizeInPlace;
  call_rollingAverage := HeavyClass.rollingAverage;
  call_formatSummary := HeavyClass.formatSummary;
  call_scramble := HeavyClass.scramble;
  call_simulate := HeavyClass.simulate
}.

(** An element of the population: the object together with the
    constructor that made it. *)
Inductive Instance :=
  | ViaClass (o : HeavyClass.HeavyThing)
  | ViaFactory (o : HeavyFactory.Closure)
  | ViaThin (o : HeavyLogic.ThinState)
  | ViaPrototype (o : HeavyFactoryPrototype.State).

(** [inst.checksum()]. *)
Definition instanceChecksum (inst : Instance) : Z :=
  match inst with
  | ViaClass o => HeavyClass.checksum o
  | ViaFactory o => HeavyFactory.checksum o
  | ViaThin o => HeavyLogic.doChecksum o
  | ViaPrototype o => HeavyFactoryPrototype.checksum o
  end.

Definition generateInitialValues (seed : Z) (length : nat) : list float :=
  let values := newArray length in
  let x := if (bor0 seed =? 0)%Z then 123456789%Z else bor0 seed in
  let '(x, values) :=
    for_loop 0 length (fun i '(x, values) =>
      let x := bxor x (shl x 13) in
      let x := bxor x (ushr x 17) in
      let x := bxor x (shl x 5) in
      let x := bor0 x in
      let rnd := ofZ (ushr x 0) / 4294967295 in
      (x, <[i := (rnd - 0.5) * 2]> values)) (x, values) in
  values.

Record MakeInstancesOptions := mkOptions {
  approach : string;
  count : Z
}.

(** [makeInstances(options)].  [clock i] is what [Date.now()] returns while
    instance [i] is constructed; [retainedInstances] is the module-level
    array before the call.  The result is the returned array (a slot that
    was never assigned is [None]) and the module-level array after the
    call, or [None] when the call throws: [new Array(count)] raises a
    RangeError unless [count] is an integer from 0 to 2^32 - 1, and a method
    call on an empty slot raises a TypeError. *)
Definition makeInstances (clock : nat -> Z) (options : MakeInstancesOptions)
    (retainedInstances : list Instance)
    : option (list (option Instance) * list Instance) :=
  let approach := approach options in
  let count := count options in
  if negb ((0 <=? count)%Z && (count <? 4294967296)%Z) then None else
  let out : list (option Instance) := replicate (Z.to_nat count) None in
  let '(out, retainedInstances) :=
    for_loop 0 (Z.to_nat count) (fun i '(out, retainedInstances) =>
      let id := (Z.of_nat i + 1)%Z in
      let name := ("obj_" ++ hex (Z.to_N id))%string in
      let tag :=
        if (i mod 3 =? 0)%nat then "alpha"%string
        else if (i mod 3 =? 1)%nat then "beta"%string
        else "gamma"%string in
      let values := generateInitialValues id 64 in
      let bias := ofZ (Z.of_nat i mod 7) * 0.01 in
      let scale := 1 + ofZ (Z.of_nat i mod 5) * 0.01 in
      let inst :=
        if String.eqb approach "class"
        then ViaClass (HeavyClass.new id name values bias scale tag (clock i))
        else if String.eqb approach "factory"
        then ViaFactory (createHeavyThing id name values bias scale tag
                           (clock i))
        else ViaThin (HeavyFactoryThin.createHeavyThingThin id name values
                        bias scale tag (clock i)) in
      (<[i := Some inst]> out, retainedInstances ++ [inst]))
      (out, retainedInstances) in
  let touchCount := Nat.min 10 (length out) in
  let touched :=
    for_loop 0 touchCount (fun i ok =>
      match out !! i with
      | Some (Some inst) => let _ := instanceChecksum inst in ok
      | _ => false
      end) true in
  if touched then Some (out, retainedInstances) else None.

End MakeInstances.

(** ** main.ts: the command line *)
Module Main.
Import JS.

Record CliOptions := mkCliOptions {
  approach : string;
  count : Z
}.

(** [Number.isFinite(n)] and [Math.floor(n)] of a finite number. *)
Definition Number_isFinite (n : float) : bool := is_finite n.
Definition Math_floor (n : float) : Z :=
  match Prim2SF n with
  | S754_finite s m e => Z.shiftl (if s then Z.neg m else Z.pos m) e
  | _ => 0
  end.

(** The loop of [parseArgs] from position [i] on, [argv] being what is left
    of the arguments there. *)
Fixpoint parseArgsFrom {rt : Runtime} (argv : list string)
    (approach : option string) (count : option Z)
    : option string * option Z :=
  match argv with
  | [] => (approach, count)
  | a :: rest =>
      match rest with
      | next :: rest' =>
          if String.eqb a "--approach" then
            let val := next in
            let approach :=
              if String.eqb val "class" || String.eqb val "factory"
                 || String.eqb val "factory-thin"
                 || String.eqb val "factory-prototype"
              then Some val else approach in
            parseArgsFrom rest' approach count
          else if String.eqb a "--count" then
            let n := toNumber next in
            let count :=
              if Number_isFinite n && (0 <? n)%float
              then Some (Math_floor n) else count in
            parseArgsFrom rest' approach count
          else parseArgsFrom rest approach count
      | [] => (approach, count)
      end
  end.

Definition parseArgs {rt : Runtime} (argv : list string)
    : option CliOptions :=
  let '(approach, count) := parseArgsFrom argv None None in
  match approach, count with
  | Some approach, Some count =>
      if (String.eqb approach "" || (count =? 0)%Z) then None
      else Some {| approach := approach; count := count |}
  | _, _ => None
  end.

End Main.

(** ** snapshot.ts: capturing the heap through the inspector session *)
Module Snapshot.

(** What a message can carry where the handler looks: a string, a
    byte array ([Uint8Array] or [Buffer]), or a value of another type. *)
Inductive Chunk :=
  | ChunkString (s : string)
  | ChunkBytes (b : list Z)
  | ChunkOther.

(** A message as the handler reads it: [m?.chunk] and [m?.params?.chunk],
    [None] where the value is null or undefined. *)
Record Message := mkMessage {
  chunk : option Chunk;
  params_chunk : option Chunk
}.

Definition Error := string.

(** How the profiling interface answers during one call: the error each
    request's callback receives ([None] for success) and the messages it
    emits while the capture request runs. *)
Record Profiler := mkProfiler {
  enableError : option Error;
  emitted : list Message;
  takeError : option Error;
  disableError : option Error
}.

(** The steps the procedure performs on the session and the stream. *)
Inductive Step :=
  | Connect
  | CreateStream
  | On
  | PostEnable
  | PostTake
  | Write (c : Chunk)
  | Off
  | EndStream
  | PostDisable
  | Disconnect.

(** The session, the profiler and the output stream, with the steps taken
    so far, oldest first. *)
Record World := mkWorld {
  connected : bool;
  profilerEnabled : bool;
  listening : bool;
  streamEnded : bool;
  written : list Chunk;
  trace : list Step
}.

Definition initial : World :=
  {| connected := false; profilerEnabled := false; listening := false;
     streamEnded := false; written := []; trace := [] |}.

(** An asynchronous computation: it leaves a world and either rejects with
    an error or resolves with a value. *)
Definition Async (A : Type) : Type := World -> World * (Error + A).

Definition resolve {A : Type} (a : A) : Async A := fun w => (w, inr a).
Definition await {A B : Type} (c : Async A) (k : A -> Async B) : Async B :=
  fun w =>
    match c w with
    | (w', inl e) => (w', inl e)
    | (w', inr a) => k a w'
    end.

#[local] Instance async_ret : MRet Async := @resolve.
#[local] Instance async_bind : MBind Async :=
  fun A B k c => await c k.

Definition log (s : Step) (w : World) : World :=
  {| connected := connected w; profilerEnabled := profilerEnabled w;
     listening := listening w; streamEnded := streamEnded w;
     written := written w; trace := trace w ++ [s] |}.

(** [session.connect()] and [session.disconnect()]. *)
Definition session_connect : Async unit := fun w =>
  let w := log Connect w in
  ({| connected := true; profilerEnabled := profilerEnabled w;
      listening := listening w; streamEnded := streamEnded w;
      written := written w; trace := trace w |}, inr tt).
Definition session_disconnect : Async unit := fun w =>
  let w := log Disconnect w in
  ({| connected := false; profilerEnabled := profilerEnabled w;
      listening := listening w; streamEnded := streamEnded w;
      written := written w; trace := trace w |}, inr tt).

(** [fs.createWriteStream(filePath, ...)]. *)
Definition createWriteStream : Async unit := fun w =>
  let w := log CreateStream w in
  ({| connected := connected w; profilerEnabled := profilerEnabled w;
      listening := listening w; streamEnded := false;
      written := []; trace := trace w |}, inr tt).

(** [session.on(..., onChunk)] and [session.off(..., onChunk)]. *)
Definition session_on : Async unit := fun w =>
  let w := log On w in
  ({| connected := connected w; profilerEnabled := profilerEnabled w;
      listening := true; streamEnded := streamEnded w;
      written := written w; trace := trace w |}, inr tt).
Definition session_off : Async unit := fun w =>
  let w := log Off w in
  ({| connected := connected w; profilerEnabled := profilerEnabled w;
      listening := false; streamEnded := streamEnded w;
      written := written w; trace := trace w |}, inr tt).

(** [output.write(chunk)]. *)
Definition output_write (c : Chunk) (w : World) : World :=
  let w := log (Write c) w in
  {| connected := connected w; profilerEnabled := profilerEnabled w;
     listening := listening w; streamEnded := streamEnded w;
     written := written w ++ [c]; trace := trace w |}.

(** The handler [onChunk]. *)
Definition onChunk (m : Message) (w : World) : World :=
  let chunk :=
    match chunk m with
    | Some c => Some c
    | None => params_chunk m
    end in
  match chunk with
  | Some (ChunkString s) => output_write (ChunkString s) w
  | Some (ChunkBytes b) => output_write (ChunkBytes b) w
  | _ => w
  end.

(** A request wrapped in a promise that rejects with the callback's error
    and resolves otherwise. *)
Definition settle (err : option Error) (w : World) : World * (Error + unit) :=
  match err with
  | Some e => (w, inl e)
  | None => (w, inr tt)
  end.

Definition post_enable (p : Profiler) : Async unit := fun w =>
  let w := log PostEnable w in
  let w :=
    match enableError p with
    | Some _ => w
    | None =>
        {| connected := connected w; profilerEnabled := true;
           listening := listening w; streamEnded := streamEnded w;
           written := written w; trace := trace w |}
    end in
  settle (enableError p) w.

Definition post_takeHeapSnapshot (p : Profiler) : Async unit := fun w =>
  let w := log PostTake w in
  let w :=
    if listening w then fold_left (fun w m => onChunk m w) (emitted p) w
    else w in
  settle (takeError p) w.

Definition post_disable (p : Profiler) : Async unit := fun w =>
  let w := log PostDisable w in
  let w :=
    match disableError p with
    | Some _ => w
    | None =>
        {| connected := connected w; profilerEnabled := false;
           listening := listening w; streamEnded := streamEnded w;
           written := written w; trace := trace w |}
    end in
  settle (disableError p) w.

(** [output.end(resolve)]: the promise has no way to reject. *)
Definition output_end : Async unit := fun w =>
  let w := log EndStream w in
  ({| connected := connected w; profilerEnabled := profilerEnabled w;
      listening := listening w; streamEnded := true;
      written := written w; trace := trace w |}, inr tt).

Definition takeHeapSnapshot (p : Profiler) : Async unit :=
  session_connect ;;
  createWriteStream ;;
  session_on ;;
  post_enable p ;;
  post_takeHeapSnapshot p ;;
  session_off ;;
  output_end ;;
  post_disable p ;;
  session_disconnect.

End Snapshot.

(** ** Operation sequences over the public surface *)
Module Scenario.
Import JS HeavyFactory.

(** One call of a method of [HeavyThingLike], with its argument. *)
Inductive Call :=
  | Checksum
  | NormalizeInPlace
  | RollingAverage (windowSize : float)
  | FormatSummary
  | Scramble (seed : float)
  | Simulate (iterations : float).

(** What a call returns to its caller. *)
Inductive Returned :=
  | RetInt (z : Z)
  | RetVoid
  | RetArray (a : list float)
  | RetString (s : string)
  | RetNumber (f : float).

(** A call on an instance: what it returns and the state it leaves. *)
Definition invoke {T : Type} `{HeavyThingLike T} (c : Call) (t : T)
    : Returned * T :=
  match c with
  | Checksum => (RetInt (call_checksum t), t)
  | NormalizeInPlace => (RetVoid, call_normalizeInPlace t)
  | RollingAverage windowSize =>
      (RetArray (call_rollingAverage t windowSize), t)
  | FormatSummary => (RetString (call_formatSummary t), t)
  | Scramble seed => (RetVoid, call_scramble t seed)
  | Simulate iterations =>
      let '(energy, t') := call_simulate t iterations in
      (RetNumber energy, t')
  end.

(** A sequence of calls: what each returned, in order, and the final
    state. *)
Fixpoint run {T : Type} `{HeavyThingLike T} (calls : list Call) (t : T)
    : list Returned * T :=
  match calls with
  | [] => ([], t)
  | c :: rest =>
      let '(r, t') := invoke c t in
      let '(rs, t'') := run rest t' in
      (r :: rs, t'')
  end.

(** The state of an instance of each strategy, read as a state record. *)
Definition viewClass (this : HeavyClass.HeavyThing) : HeavyLogic.ThinState :=
  {| HeavyLogic.id := HeavyClass.id this;
     HeavyLogic.name := HeavyClass.name this;
     HeavyLogic.values := HeavyClass.values this;
     HeavyLogic.bias := HeavyClass.bias this;
     HeavyLogic.scale := HeavyClass.scale this;
     HeavyLogic.createdAt := HeavyClass.createdAt (HeavyClass.meta this);
     HeavyLogic.tag := HeavyClass.tag (HeavyClass.meta this) |}.

Definition viewClosure (env : Closure) : HeavyLogic.ThinState :=
  {| HeavyLogic.id := _id env;
     HeavyLogic.name := _name env;
     HeavyLogic.values := _values env;
     HeavyLogic.bias := _bias env;
     HeavyLogic.scale := _scale env;
     HeavyLogic.createdAt := createdAt (_meta env);
     HeavyLogic.tag := tag (_meta env) |}.

Definition viewPrototype (this : HeavyFactoryPrototype.State)
    : HeavyLogic.ThinState :=
  {| HeavyLogic.id := HeavyFactoryPrototype.id this;
     HeavyLogic.name := HeavyFactoryPrototype.name this;
     HeavyLogic.values := HeavyFactoryPrototype.values this;
     HeavyLogic.bias := HeavyFactoryPrototype.bias this;
     HeavyLogic.scale := HeavyFactoryPrototype.scale this;
     HeavyLogic.createdAt := HeavyFactoryPrototype.createdAt this;
     HeavyLogic.tag := HeavyFactoryPrototype.tag this |}.

Definition viewInstance (inst : MakeInstances.Instance)
    : HeavyLogic.ThinState :=
  match inst with
  | MakeInstances.ViaClass o => viewClass o
  | MakeInstances.ViaFactory o => viewClosure o
  | MakeInstances.ViaThin o => o
  | MakeInstances.ViaPrototype o => viewPrototype o
  end.

End Scenario.

(** * Properties *)

Import JS HeavyFactory HeavyFactoryThin MakeInstances HeavyLogic Scenario.

(** ** Loops *)

Section Loops.
Context {St : Type}.

Lemma for_loop_snoc (from count : nat) (body : nat -> St -> St) (s : St) :
  for_loop from (S count) body s =
  body (from + count)%nat (for_loop from count body s).
Proof.
  revert from s. induction count as [|c IH]; intros from s.
  - simpl. rewrite Nat.add_0_r. reflexivity.
  - change (for_loop from (S (S c)) body s)
      with (for_loop (S from) (S c) body (body from s)).
    rewrite IH. simpl. rewrite Nat.add_succ_r. reflexivity.
Qed.

(** An invariant indexed by the loop counter. *)
Lemma for_loop_inv (P : nat -> St -> Prop) (from count : nat)
    (body : nat -> St -> St) (s : St) :
  P from s ->
  (forall i t, (from <= i < from + count)%nat -> P i t -> P (S i) (body i t)) ->
  P (from + count)%nat (for_loop from count body s).
Proof.
  intros H0 Hstep. induction count as [|c IH].
  - rewrite Nat.add_0_r. exact H0.
  - rewrite for_loop_snoc, Nat.add_succ_r. apply Hstep; [lia|].
    apply IH. intros i t Hi. apply Hstep. lia.
Qed.

(** An invariant that does not mention the counter. *)
Lemma for_loop_preserves (P : St -> Prop) (from count : nat)
    (body : nat -> St -> St) (s : St) :
  P s -> (forall i t, P t -> P (body i t)) ->
  P (for_loop from count body s).
Proof.
  intros H0 Hstep.
  apply (for_loop_inv (fun _ => P) from count body s H0).
  intros i t _. apply Hstep.
Qed.

Lemma for_loop_ext (from count : nat) (f g : nat -> St -> St) (s : St) :
  (forall i t, (from <= i < from + count)%nat -> f i t = g i t) ->
  for_loop from count f s = for_loop from count g s.
Proof.
  revert from s. induction count as [|c IH]; intros from s H; [reflexivity|].
  simpl. rewrite (H from s) by lia. apply IH. intros i t Hi. apply H. lia.
Qed.

End Loops.

(** ** The three strategies run the same kernel *)

(** Reduce the field reads of the records, and nothing else. *)
Ltac fields :=
  cbn [HeavyClass.id HeavyClass.name HeavyClass.values HeavyClass.bias
       HeavyClass.scale HeavyClass.meta HeavyClass.createdAt HeavyClass.tag
       _id _name _values _bias _scale _meta HeavyFactory.createdAt
       HeavyFactory.tag
       HeavyLogic.id HeavyLogic.name HeavyLogic.values HeavyLogic.bias
       HeavyLogic.scale HeavyLogic.createdAt HeavyLogic.tag
       viewClass viewClosure fst snd].

(** Name the result of every loop that returns a pair. *)
Ltac loops :=
  repeat match goal with
  | |- context [match for_loop ?a ?b ?c ?d with pair _ _ => _ end] =>
      destruct (for_loop a b c d)
  end.

Section Strategies.
Context {rt : Runtime}.

Lemma class_invoke (c : Call) (this : HeavyClass.HeavyThing) :
  fst (invoke c this) = fst (invoke c (viewClass this)) /\
  viewClass (snd (invoke c this)) = snd (invoke c (viewClass this)).
Proof.
  destruct this as [i nm vs b sc [ca tg]].
  destruct c; unfold invoke, call_checksum, call_normalizeInPlace,
    call_rollingAverage, call_formatSummary, call_scramble, call_simulate,
    class_like, thin_like;
  unfold HeavyClass.checksum, HeavyClass.normalizeInPlace,
    HeavyClass.rollingAverage, HeavyClass.formatSummary, HeavyClass.scramble,
    HeavyClass.simulate, doChecksum, doNormalizeInPlace, doRollingAverage,
    doFormatSummary, doScramble, doSimulate, effectiveWindow; fields;
  try (destruct (length vs =? 0)%nat); loops; fields; split; reflexivity.
Qed.

Lemma closure_invoke (c : Call) (env : Closure) :
  fst (invoke c env) = fst (invoke c (viewClosure env)) /\
  viewClosure (snd (invoke c env)) = snd (invoke c (viewClosure env)).
Proof.
  destruct env as [i nm vs b sc [ca tg]].
  destruct c; unfold invoke, call_checksum, call_normalizeInPlace,
    call_rollingAverage, call_formatSummary, call_scramble, call_simulate,
    closure_like, thin_like;
  unfold HeavyFactory.checksum, HeavyFactory.normalizeInPlace,
    HeavyFactory.rollingAverage, HeavyFactory.formatSummary,
    HeavyFactory.scramble, HeavyFactory.simulate, doChecksum,
    doNormalizeInPlace, doRollingAverage, doFormatSummary, doScramble,
    doSimulate, effectiveWindow; fields;
  try (destruct (length vs =? 0)%nat); loops; fields; split; reflexivity.
Qed.

Lemma class_run (calls : list Call) (this : HeavyClass.HeavyThing) :
  fst (run calls this) = fst (run calls (viewClass this)) /\
  viewClass (snd (run calls this)) = snd (run calls (viewClass this)).
Proof.
  revert this.
  induction calls as [|c rest IH]; intros this; [split; reflexivity|].
  simpl. destruct (class_invoke c this) as [Hr Hs].
  destruct (invoke c this) as [r t'], (invoke c (viewClass this)) as [r2 t2].
  simpl in Hr, Hs. subst r2 t2.
  destruct (IH t') as [Hrs Hss].
  destruct (run rest t') as [rs t''], (run rest (viewClass t')) as [rs2 t2].
  simpl in *. subst. split; reflexivity.
Qed.

Lemma closure_run (calls : list Call) (env : Closure) :
  fst (run calls env) = fst (run calls (viewClosure env)) /\
  viewClosure (snd (run calls env)) = snd (run calls (viewClosure env)).
Proof.
  revert env.
  induction calls as [|c rest IH]; intros env; [split; reflexivity|].
  simpl. destruct (closure_invoke c env) as [Hr Hs].
  destruct (invoke c env) as [r t'], (invoke c (viewClosure env)) as [r2 t2].
  simpl in Hr, Hs. subst r2 t2.
  destruct (IH t') as [Hrs Hss].
  destruct (run rest t') as [rs t''], (run rest (viewClosure t')) as [rs2 t2].
  simpl in *. subst. split; reflexivity.
Qed.

End Strategies.

(** C1, as amended: for identical constructor arguments, the same reading
    of the clock at construction and an identical sequence of calls, the
    class, the closure factory and the thin-wrapper factory return the same
    results call by call (checksums, summaries, rolling averages,
    energies) and end in the same values, bias and scale. *)
Theorem strategies_agree {rt : Runtime} (id : Z) (name : string)
    (values : list float) (bias scale : float) (tag : string) (now : Z)
    (calls : list Call) :
  let viaClass :=
    run calls (HeavyClass.new id name values bias scale tag now) in
  let viaFactory :=
    run calls (createHeavyThing id name values bias scale tag now) in
  let viaThin :=
    run calls (createHeavyThingThin id name values bias scale tag now) in
  fst viaClass = fst viaThin /\
  fst viaFactory = fst viaThin /\
  viewClass (snd viaClass) = snd viaThin /\
  viewClosure (snd viaFactory) = snd viaThin.
Proof.
  intros viaClass viaFactory viaThin.
  destruct (class_run calls (HeavyClass.new id name values bias scale tag now))
    as [Hc1 Hc2].
  destruct (closure_run calls
              (createHeavyThing id name values bias scale tag now))
    as [Hf1 Hf2].
  repeat split; assumption.
Qed.

(** C1, as stated, fails: the constructor arguments do not include the
    clock, and two instances built from the same arguments at different
    readings of [Date.now()] return different checksums. *)
Lemma strategies_disagree_across_clock_readings :
  ~ (forall (rt : Runtime) (id : Z) (name : string) (values : list float)
       (bias scale : float) (tag : string) (now1 now2 now3 : Z)
       (calls : list Call),
      fst (run calls (HeavyClass.new id name values bias scale tag now1)) =
      fst (run calls
             (createHeavyThingThin id name values bias scale tag now3)) /\
      fst (run calls (createHeavyThing id name values bias scale tag now2)) =
      fst (run calls
             (createHeavyThingThin id name values bias scale tag now3))).
Proof.
  intros H.
  pose (rt := {| toFixed := fun _ _ => EmptyString;
                 toNumber := fun _ => 0%float |}).
  destruct (H rt 1 "obj_1"%string [] 0%float 1%float "alpha"%string
              1700000000000 1700000000000 1700000000001 [Checksum])
    as [Hclass _].
  vm_compute in Hclass. discriminate Hclass.
Qed.

(** ** The length of [values] *)

Lemma insert_loop_length {A : Type} (f : nat -> list A -> A) (from count : nat)
    (l : list A) :
  length (for_loop from count (fun i l => <[i := f i l]> l) l) = length l.
Proof.
  apply (for_loop_preserves (fun l' => length l' = length l)); [reflexivity|].
  intros i t Ht. rewrite length_insert. exact Ht.
Qed.

Lemma doNormalizeInPlace_length (s : ThinState) :
  length (values (doNormalizeInPlace s)) = length (values s).
Proof.
  unfold doNormalizeInPlace; fields.
  apply (insert_loop_length (fun i vals => _)).
Qed.

Lemma doScramble_length (s : ThinState) (seed : float) :
  length (values (doScramble s seed)) = length (values s).
Proof.
  unfold doScramble.
  match goal with
  | |- context [match for_loop ?a ?b ?c ?d with pair _ _ => _ end] =>
      assert (H : length (snd (for_loop a b c d)) = length (values s));
      [|destruct (for_loop a b c d); exact H]
  end.
  apply (for_loop_preserves (fun st => length (snd st) = length (values s)));
    [reflexivity|].
  intros i [x vals] Ht. cbn [snd] in *. rewrite length_insert. exact Ht.
Qed.

Lemma doSimulate_length (s : ThinState) (iterations : float) :
  length (values (snd (doSimulate s iterations))) = length (values s).
Proof.
  unfold doSimulate.
  destruct (length (values s) =? 0)%nat; [reflexivity|].
  match goal with
  | |- context [match for_loop ?a ?b ?c ?d with pair _ _ => _ end] =>
      assert (H : length (fst (for_loop a b c d)) = length (values s));
      [|destruct (for_loop a b c d); exact H]
  end.
  apply (for_loop_preserves (fun st => length (fst st) = length (values s)));
    [reflexivity|].
  intros it [vals temp] Ht. cbn [fst] in *.
  rewrite (insert_loop_length (fun i vals => get _ i)). exact Ht.
Qed.

(** C9: no call on an instance changes the length of its values; this
    holds for every method, every argument and each of the three
    strategies. *)
Theorem values_length_never_changes {rt : Runtime} (c : Call) :
  (forall state : ThinState,
     length (values (snd (invoke c state))) = length (values state)) /\
  (forall this : HeavyClass.HeavyThing,
     length (HeavyClass.values (snd (invoke c this))) =
     length (HeavyClass.values this)) /\
  (forall env : Closure,
     length (_values (snd (invoke c env))) = length (_values env)).
Proof.
  assert (Hthin : forall state : ThinState,
            length (values (snd (invoke c state))) = length (values state)).
  { intros state. destruct c.
    - reflexivity.
    - apply doNormalizeInPlace_length.
    - reflexivity.
    - reflexivity.
    - apply doScramble_length.
    - unfold invoke, call_simulate, thin_like.
      pose proof (doSimulate_length state iterations) as H.
      destruct (doSimulate state iterations). exact H. }
  split; [exact Hthin|split].
  - intros this. destruct (class_invoke c this) as [_ Hs].
    change (HeavyClass.values (snd (invoke c this)))
      with (values (viewClass (snd (invoke c this)))).
    rewrite Hs. apply Hthin.
  - intros env. destruct (closure_invoke c env) as [_ Hs].
    change (_values (snd (invoke c env)))
      with (values (viewClosure (snd (invoke c env)))).
    rewrite Hs. apply Hthin.
Qed.

(** ** simulate: the clamp of the iteration count, and empty values *)

(** C6: [simulate(state, 0)] returns what [simulate(state, 1)] returns and
    leaves the same state, and on empty values every iteration count
    returns 0 and leaves the state as it was. *)
Theorem simulate_zero_is_one_and_empty_is_zero (state : ThinState) :
  doSimulate state 0 = doSimulate state 1 /\
  (forall iterations : float,
     values state = [] -> doSimulate state iterations = (0%float, state)).
Proof.
  split.
  - unfold doSimulate.
    replace (toInt32F 0) with 0%Z by (vm_compute; reflexivity).
    replace (toInt32F 1) with 1%Z by (vm_compute; reflexivity).
    reflexivity.
  - intros iterations Hempty. unfold doSimulate. rewrite Hempty. reflexivity.
Qed.

Lemma simulate_zero_is_one_and_empty_is_zero_witness :
  let state :=
    {| id := 7; name := "obj_7"; values := []; bias := 0.06; scale := 1.01;
       createdAt := 1700000000000; tag := "alpha" |} in
  doSimulate state 5 = (0%float, state).
Proof.
  intros state.
  apply (proj2 (simulate_zero_is_one_and_empty_is_zero state) 5%float).
  reflexivity.
Defined.

(** ** checksum and formatSummary *)

Lemma toInt32_range (z : Z) : -2147483648 <= toInt32 z < 2147483648.
Proof.
  unfold toInt32, toUint32.
  pose proof (Z.mod_pos_bound z 4294967296 eq_refl) as Hm.
  destruct (z mod 4294967296 <? 2147483648) eqn:Hlt.
  - apply Z.ltb_lt in Hlt. lia.
  - apply Z.ltb_ge in Hlt. lia.
Qed.

Lemma doChecksum_range (state : ThinState) :
  -2147483648 <= doChecksum state < 2147483648.
Proof.
  unfold doChecksum. loops. apply toInt32_range.
Qed.

(** What the summary prints of the values, and the calls that assign
    nothing. *)
Module SummarySpec.

(** The least and the greatest value, the sum from left to right, and the
    mean as [doFormatSummary] computes them. *)
Definition least (vs : list float) : float :=
  fold_left (fun m v => if (v <? m)%float then v else m) vs infinity.
Definition greatest (vs : list float) : float :=
  fold_left (fun m v => if (m <? v)%float then v else m) vs neg_infinity.
Definition total (vs : list float) : float :=
  fold_left (fun s v => (s + v)%float) vs 0%float.
Definition average (vs : list float) : float :=
  if (0 <? length vs)%nat
  then (total vs / ofZ (Z.of_nat (length vs)))%float else 0%float.

(** [checksum], [rollingAverage] and [formatSummary] return a result and
    assign no field. *)
Definition observes (c : Call) : bool :=
  match c with
  | Checksum | RollingAverage _ | FormatSummary => true
  | NormalizeInPlace | Scramble _ | Simulate _ => false
  end.

End SummarySpec.

(** The loop of [doFormatSummary] reads the values once, from left to
    right. *)
Lemma summary_loop (vs : list float) :
  for_loop 0 (length vs) (fun i '(min, max, sum) =>
    let v := get vs i in
    let min := if (v <? min)%float then v else min in
    let max := if (max <? v)%float then v else max in
    (min, max, (sum + v)%float)) (infinity, neg_infinity, 0%float) =
  (SummarySpec.least vs, SummarySpec.greatest vs, SummarySpec.total vs).
Proof.
  pose (P := fun (i : nat) (st : float * float * float) =>
    st = (SummarySpec.least (take i vs), SummarySpec.greatest (take i vs),
          SummarySpec.total (take i vs))).
  match goal with
  | |- for_loop 0 ?n ?body ?init = _ =>
      assert (HP : P (0 + n)%nat (for_loop 0 n body init))
  end.
  { apply for_loop_inv.
    - reflexivity.
    - intros i [[min max] sum] Hi HP. unfold P in *.
      injection HP as -> -> ->.
      destruct (lookup_lt_is_Some_2 vs i ltac:(lia)) as [v Hv].
      rewrite (take_S_r vs i v Hv).
      unfold SummarySpec.least, SummarySpec.greatest, SummarySpec.total.
      rewrite !fold_left_app. unfold get. rewrite Hv. reflexivity. }
  unfold P in HP. simpl Nat.add in HP. rewrite firstn_all in HP. exact HP.
Qed.

Lemma doFormatSummary_closed {rt : Runtime} (state : ThinState) :
  doFormatSummary state =
  String.concat newline
    [ "00|id=" ++ numberToString (id state);
      "01|name=" ++ name state;
      "02|tag=" ++ tag state;
      "03|len=" ++ decimal (Z.of_nat (length (values state)));
      "04|bias=" ++ toFixed (bias state) 6;
      "05|scale=" ++ toFixed (scale state) 6;
      "06|min=" ++ toFixed (SummarySpec.least (values state)) 6;
      "07|max=" ++ toFixed (SummarySpec.greatest (values state)) 6;
      "08|mean=" ++ toFixed (SummarySpec.average (values state)) 6;
      "09|checksum=" ++ decimal (doChecksum state) ]%string.
Proof.
  unfold doFormatSummary. cbv zeta. rewrite summary_loop. reflexivity.
Qed.

(** Calls that assign nothing leave the state as it was, so each returns
    what it returns on that state. *)
Lemma observers_run {rt : Runtime} (calls : list Call) (state : ThinState) :
  run (List.filter SummarySpec.observes calls) state =
  (map (fun c => fst (invoke c state)) (List.filter SummarySpec.observes calls),
   state).
Proof.
  induction calls as [|c calls IH]; [reflexivity|].
  destruct c; cbn [List.filter SummarySpec.observes]; try exact IH;
    cbn [run invoke map fst]; rewrite IH; reflexivity.
Qed.

(** C8: [checksum] returns a 32-bit signed integer and assigns nothing, and
    so does [formatSummary]: in any sequence of calls that assign nothing
    (checksum, rollingAverage, formatSummary) every call returns what it
    returns on the state the sequence started from, so two checksum calls
    return the same integer, and the state is left as it was.  The summary
    is ten lines joined by line feeds, each opened by its two-digit
    hexadecimal index and a bar: the id, the name, the tag, the length, the
    bias and the scale, then the least value, the greatest value and the
    mean of the values (the sum from left to right over the length, 0 for
    no values), and last the integer a direct checksum call returns. *)
Theorem checksum_is_pure_and_summary_has_ten_lines {rt : Runtime}
    (state : ThinState) :
  (forall calls : list Call,
     run (List.filter SummarySpec.observes calls) state =
     (map (fun c => fst (invoke c state))
        (List.filter SummarySpec.observes calls), state)) /\
  run [Checksum; FormatSummary; Checksum] state =
    ([RetInt (doChecksum state); RetString (doFormatSummary state);
      RetInt (doChecksum state)], state) /\
  -2147483648 <= doChecksum state < 2147483648 /\
  doFormatSummary state =
    String.concat newline
      [ "00|id=" ++ numberToString (id state);
        "01|name=" ++ name state;
        "02|tag=" ++ tag state;
        "03|len=" ++ decimal (Z.of_nat (length (values state)));
        "04|bias=" ++ toFixed (bias state) 6;
        "05|scale=" ++ toFixed (scale state) 6;
        "06|min=" ++ toFixed (SummarySpec.least (values state)) 6;
        "07|max=" ++ toFixed (SummarySpec.greatest (values state)) 6;
        "08|mean=" ++ toFixed (SummarySpec.average (values state)) 6;
        "09|checksum=" ++ decimal (doChecksum state) ]%string.
Proof.
  split; [intros calls; apply observers_run|].
  split; [exact (observers_run [Checksum; FormatSummary; Checksum] state)|].
  split; [apply doChecksum_range|apply doFormatSummary_closed].
Qed.

(** ** The snapshot procedure *)

Module SnapshotFacts.
Import Snapshot.

(** What the handler forwards of one message, and of a sequence of them. *)
Definition kept (m : Message) : list Chunk :=
  match (match chunk m with Some c => Some c | None => params_chunk m end) with
  | Some (ChunkString s) => [ChunkString s]
  | Some (ChunkBytes b) => [ChunkBytes b]
  | _ => []
  end.

Lemma onChunk_kept (m : Message) (w : World) :
  onChunk m w =
  {| connected := connected w; profilerEnabled := profilerEnabled w;
     listening := listening w; streamEnded := streamEnded w;
     written := written w ++ kept m;
     trace := trace w ++ map Write (kept m) |}.
Proof.
  unfold onChunk, kept.
  destruct (chunk m) as [[s|b|]|]; [| | |destruct (params_chunk m) as [[s|b|]|]];
    destruct w; simpl; rewrite ?app_nil_r; reflexivity.
Qed.

Lemma emit_all (ms : list Message) (w : World) :
  fold_left (fun w m => onChunk m w) ms w =
  {| connected := connected w; profilerEnabled := profilerEnabled w;
     listening := listening w; streamEnded := streamEnded w;
     written := written w ++ flat_map kept ms;
     trace := trace w ++ map Write (flat_map kept ms) |}.
Proof.
  revert w. induction ms as [|m ms IH]; intros w.
  - simpl. rewrite !app_nil_r. destruct w; reflexivity.
  - simpl fold_left. rewrite IH, onChunk_kept. simpl.
    rewrite map_app, <- !app_assoc. reflexivity.
Qed.

End SnapshotFacts.

(** C2, as amended: when the three requests succeed, the session ends
    with the profiler disabled and the session disconnected, the handler
    removed and the stream closed, closing coming after the capture and
    after every write; when the enable request or the capture request
    fails, the error is surfaced at once and no release step is taken (the
    session stays connected, the handler registered, the stream open);
    when the disable request fails the session stays connected; and on
    every path the stream is closed only after the capture request has
    completed without error. *)
Theorem takeHeapSnapshot_paths (p : Snapshot.Profiler) :
  let w := fst (Snapshot.takeHeapSnapshot p Snapshot.initial) in
  let r := snd (Snapshot.takeHeapSnapshot p Snapshot.initial) in
  let forwarded := map Snapshot.Write (flat_map SnapshotFacts.kept
                                         (Snapshot.emitted p)) in
  match Snapshot.enableError p, Snapshot.takeError p,
        Snapshot.disableError p with
  | Some e, _, _ =>
      r = inl e /\
      Snapshot.trace w =
        [Snapshot.Connect; Snapshot.CreateStream; Snapshot.On;
         Snapshot.PostEnable] /\
      Snapshot.connected w = true /\ Snapshot.listening w = true /\
      Snapshot.streamEnded w = false
  | None, Some e, _ =>
      r = inl e /\
      Snapshot.trace w =
        [Snapshot.Connect; Snapshot.CreateStream; Snapshot.On;
         Snapshot.PostEnable; Snapshot.PostTake] ++ forwarded /\
      Snapshot.connected w = true /\ Snapshot.profilerEnabled w = true /\
      Snapshot.listening w = true /\ Snapshot.streamEnded w = false
  | None, None, Some e =>
      r = inl e /\
      Snapshot.trace w =
        [Snapshot.Connect; Snapshot.CreateStream; Snapshot.On;
         Snapshot.PostEnable; Snapshot.PostTake] ++ forwarded ++
        [Snapshot.Off; Snapshot.EndStream; Snapshot.PostDisable] /\
      Snapshot.connected w = true /\ Snapshot.profilerEnabled w = true /\
      Snapshot.listening w = false /\ Snapshot.streamEnded w = true
  | None, None, None =>
      r = inr tt /\
      Snapshot.trace w =
        [Snapshot.Connect; Snapshot.CreateStream; Snapshot.On;
         Snapshot.PostEnable; Snapshot.PostTake] ++ forwarded ++
        [Snapshot.Off; Snapshot.EndStream; Snapshot.PostDisable;
         Snapshot.Disconnect] /\
      Snapshot.connected w = false /\ Snapshot.profilerEnabled w = false /\
      Snapshot.listening w = false /\ Snapshot.streamEnded w = true /\
      Snapshot.written w = flat_map SnapshotFacts.kept (Snapshot.emitted p)
  end /\
  (Snapshot.streamEnded w = true ->
   Snapshot.enableError p = None /\ Snapshot.takeError p = None /\
   exists after,
     Snapshot.trace w =
       [Snapshot.Connect; Snapshot.CreateStream; Snapshot.On;
        Snapshot.PostEnable; Snapshot.PostTake] ++ forwarded ++
       [Snapshot.Off; Snapshot.EndStream] ++ after /\
     forall c, ~ In (Snapshot.Write c) after).
Proof.
  destruct p as [[e1|] ms [e2|] [e3|]];
    lazy -[fold_left flat_map map app Snapshot.onChunk SnapshotFacts.kept];
    rewrite ?SnapshotFacts.emit_all;
    lazy -[flat_map map app SnapshotFacts.kept];
    cbn [app]; rewrite <- ?app_assoc; cbn [app];
    (split; [repeat split; reflexivity|]);
    intros Hended; try discriminate Hended;
    (split; [reflexivity|]); (split; [reflexivity|]).
  - exists [Snapshot.PostDisable]. split; [reflexivity|].
    intros c [H|[]]; discriminate H.
  - exists [Snapshot.PostDisable; Snapshot.Disconnect].
    split; [reflexivity|].
    intros c [H|[H|[]]]; discriminate H.
Qed.

(** C2, as stated, fails: when the capture request is refused after a
    chunk was written, the procedure returns the error with the profiler
    still enabled and the session still connected, having posted no
    disable request and not having disconnected. *)
Lemma failed_capture_skips_release :
  ~ (forall p : Snapshot.Profiler,
       let w := fst (Snapshot.takeHeapSnapshot p Snapshot.initial) in
       In Snapshot.PostDisable (Snapshot.trace w) /\
       In Snapshot.Disconnect (Snapshot.trace w) /\
       Snapshot.profilerEnabled w = false /\
       Snapshot.connected w = false).
Proof.
  intros H.
  destruct (H {| Snapshot.enableError := None;
                 Snapshot.emitted :=
                   [ {| Snapshot.chunk := Some (Snapshot.ChunkString "{");
                        Snapshot.params_chunk := None |} ];
                 Snapshot.takeError := Some "capture failed"%string;
                 Snapshot.disableError := None |})
    as (_ & _ & _ & Hconnected).
  vm_compute in Hconnected. discriminate Hconnected.
Qed.

(** ** The population *)

(** Writing slot [i] of an array whose first [i] slots are filled. *)
Lemma insert_prefix {A : Type} (g : nat -> A) (d : A) (n i : nat) :
  (i < n)%nat ->
  <[i := g i]> (map g (seq 0 i) ++ replicate (n - i) d) =
  map g (seq 0 (S i)) ++ replicate (n - S i) d.
Proof.
  intros Hi.
  replace (n - i)%nat with (S (n - S i)) by lia.
  rewrite seq_S, map_app, <- app_assoc. simpl.
  rewrite insert_app_r_alt by (rewrite length_map, length_seq; lia).
  rewrite length_map, length_seq, Nat.sub_diag. reflexivity.
Qed.

Module PopulationSpec.

(** One round of the xorshift32 generator on a 32-bit state. *)
Definition xorshift32 (x : Z) : Z :=
  let x := bxor x (shl x 13) in
  let x := bxor x (ushr x 17) in
  let x := bxor x (shl x 5) in
  bor0 x.

(** The state a stream starts from: the seed truncated to 32 bits, or the
    fallback constant when that is zero. *)
Definition seedOf (seed fallback : Z) : Z :=
  if bor0 seed =? 0 then fallback else bor0 seed.

(** The unsigned 32-bit integer of draw [j] of the stream from [x0], and
    the draw itself, that integer over 2^32 - 1. *)
Definition drawInteger (x0 : Z) (j : nat) : Z :=
  ushr (Nat.iter (S j) xorshift32 x0) 0.
Definition draw (x0 : Z) (j : nat) : float :=
  (ofZ (drawInteger x0 j) / 4294967295)%float.

(** The first [n] draws, each mapped by [(rnd - 0.5) * 2]. *)
Definition streamValues (x0 : Z) (n : nat) : list float :=
  map (fun j => ((draw x0 j - 0.5) * 2)%float) (seq 0 n).

(** The three labels a tag cycles through. *)
Definition tags : list string := ["alpha"; "beta"; "gamma"]%string.

(** The state record the instance of index [i] is built from. *)
Definition seedRecord (clock : nat -> Z) (i : nat) : ThinState :=
  {| id := Z.of_nat i + 1;
     name := ("obj_" ++ hex (N.of_nat i + 1))%string;
     values := streamValues (seedOf (Z.of_nat i + 1) 123456789) 64;
     bias := (ofZ (Z.of_nat i mod 7) * 0.01)%float;
     scale := (1 + ofZ (Z.of_nat i mod 5) * 0.01)%float;
     createdAt := clock i;
     tag := nth (i mod 3) tags EmptyString |}.

End PopulationSpec.

Lemma generateInitialValues_stream (seed : Z) (n : nat) :
  generateInitialValues seed n =
  PopulationSpec.streamValues (PopulationSpec.seedOf seed 123456789) n.
Proof.
  unfold generateInitialValues, PopulationSpec.streamValues.
  fold (PopulationSpec.seedOf seed 123456789).
  set (x0 := PopulationSpec.seedOf seed 123456789).
  set (g := fun j => ((PopulationSpec.draw x0 j - 0.5) * 2)%float).
  match goal with
  | |- context [for_loop 0 n ?body ?init] =>
      assert (H : for_loop 0 n body init =
                  (Nat.iter n PopulationSpec.xorshift32 x0, map g (seq 0 n)));
      [|rewrite H; reflexivity]
  end.
  pose (P := fun (i : nat) (st : Z * list float) =>
    st = (Nat.iter i PopulationSpec.xorshift32 x0,
          map g (seq 0 i) ++ replicate (n - i) nan)).
  match goal with
  | |- for_loop 0 n ?body ?init = _ =>
      assert (HP : P (0 + n)%nat (for_loop 0 n body init))
  end.
  { apply for_loop_inv.
    - unfold P, newArray. rewrite Nat.sub_0_r. reflexivity.
    - intros i [x vals] Hi HP. unfold P in *. injection HP as -> ->.
      rewrite <- (insert_prefix g nan n i) by lia.
      unfold g, PopulationSpec.draw, PopulationSpec.drawInteger.
      rewrite !Nat.iter_succ.
      generalize (Nat.iter i PopulationSpec.xorshift32 x0) as x'.
      intros x'. unfold PopulationSpec.xorshift32. cbv zeta. reflexivity. }
  unfold P in HP. rewrite HP. simpl Nat.add.
  rewrite Nat.sub_diag, app_nil_r. reflexivity.
Qed.

Module PopulationFacts.
Import PopulationSpec.

(** The constructor an approach value selects, applied to a state record's
    fields. *)
Definition construct (approach : string) (s : ThinState) : Instance :=
  if String.eqb approach "class"
  then ViaClass (HeavyClass.new (id s) (name s) (values s) (bias s) (scale s)
                   (tag s) (createdAt s))
  else if String.eqb approach "factory"
  then ViaFactory (createHeavyThing (id s) (name s) (values s) (bias s)
                     (scale s) (tag s) (createdAt s))
  else ViaThin (createHeavyThingThin (id s) (name s) (values s) (bias s)
                  (scale s) (tag s) (createdAt s)).

Lemma view_construct (approach : string) (s : ThinState) :
  viewInstance (construct approach s) = s.
Proof.
  unfold construct. destruct s.
  destruct (String.eqb approach "class"); [reflexivity|].
  destruct (String.eqb approach "factory"); reflexivity.
Qed.

Lemma tag_cycle (i : nat) :
  (if (i mod 3 =? 0)%nat then "alpha"%string
   else if (i mod 3 =? 1)%nat then "beta"%string else "gamma"%string) =
  nth (i mod 3) tags EmptyString.
Proof.
  pose proof (Nat.mod_upper_bound i 3 ltac:(lia)) as Hlt.
  destruct (i mod 3)%nat as [|[|[|k]]]; try reflexivity. lia.
Qed.

(** The whole of [makeInstances] on a count that is a valid array
    length. *)
Lemma makeInstances_population (clock : nat -> Z) (approach : string)
    (count : Z) (retained : list Instance) :
  0 <= count < 4294967296 ->
  makeInstances clock {| MakeInstances.approach := approach;
                         MakeInstances.count := count |} retained =
  Some (map (fun i => Some (construct approach (seedRecord clock i)))
          (seq 0 (Z.to_nat count)),
        retained ++
        map (fun i => construct approach (seedRecord clock i))
          (seq 0 (Z.to_nat count))).
Proof.
  intros Hcount. unfold makeInstances.
  cbn [MakeInstances.approach MakeInstances.count].
  replace ((0 <=? count) && (count <? 4294967296)) with true
    by (symmetry; apply andb_true_iff; split;
        [apply Z.leb_le|apply Z.ltb_lt]; lia).
  cbn [negb].
  set (n := Z.to_nat count).
  set (g := fun i => Some (construct approach (seedRecord clock i))).
  set (h := fun i => construct approach (seedRecord clock i)).
  match goal with
  | |- context [for_loop 0 n ?body ?init] =>
      assert (H : for_loop 0 n body init =
                  (map g (seq 0 n), retained ++ map h (seq 0 n)))
  end.
  { pose (P := fun (i : nat) (st : list (option Instance) * list Instance) =>
      st = (map g (seq 0 i) ++ replicate (n - i) None,
            retained ++ map h (seq 0 i))).
    match goal with
    | |- for_loop 0 n ?body ?init = _ =>
        assert (HP : P (0 + n)%nat (for_loop 0 n body init))
    end.
    { apply for_loop_inv.
      - unfold P. rewrite Nat.sub_0_r, app_nil_r. reflexivity.
      - intros i [out ret] Hi HP. unfold P in *. injection HP as -> ->.
        rewrite <- (insert_prefix g None n i) by lia.
        rewrite seq_S, map_app, app_assoc. simpl map.
        rewrite tag_cycle, generateInitialValues_stream.
        replace (Z.to_N (Z.of_nat i + 1)) with (N.of_nat i + 1)%N by lia.
        reflexivity. }
    unfold P in HP. rewrite HP. simpl Nat.add.
    rewrite Nat.sub_diag, app_nil_r. reflexivity. }
  rewrite H. clear H.
  match goal with
  | |- context [for_loop 0 ?tc ?body true] =>
      assert (H : for_loop 0 tc body true = true)
  end.
  { apply (for_loop_inv (fun _ ok => ok = true)); [reflexivity|].
    intros i ok Hi ->.
    rewrite length_map, length_seq in Hi.
    rewrite list_lookup_fmap, lookup_seq_lt by lia. reflexivity. }
  rewrite H. reflexivity.
Qed.

End PopulationFacts.

Lemma drawInteger_range (x0 : Z) (j : nat) :
  0 <= PopulationSpec.drawInteger x0 j <= 4294967295.
Proof.
  unfold PopulationSpec.drawInteger, ushr, toUint32.
  change (0 mod 32) with 0. rewrite Z.shiftr_0_r.
  pose proof (Z.mod_pos_bound
                (Nat.iter (S j) PopulationSpec.xorshift32 x0) 4294967296
                eq_refl).
  lia.
Qed.

Lemma seedOf_id (i : nat) :
  Z.of_nat i + 1 < 4294967296 ->
  PopulationSpec.seedOf (Z.of_nat i + 1) 123456789 =
    toInt32 (Z.of_nat i + 1) /\
  toInt32 (Z.of_nat i + 1) <> 0.
Proof.
  intros Hi. unfold PopulationSpec.seedOf, bor0.
  assert (Hnz : toInt32 (Z.of_nat i + 1) <> 0).
  { unfold toInt32, toUint32. rewrite Z.mod_small by lia.
    destruct (Z.of_nat i + 1 <? 2147483648) eqn:E; [lia|].
    apply Z.ltb_ge in E. lia. }
  split; [|exact Hnz].
  destruct (toInt32 (Z.of_nat i + 1) =? 0) eqn:E; [|reflexivity].
  apply Z.eqb_eq in E. contradiction.
Qed.

(** C4: for a count that is a valid array length, [makeInstances] returns
    that many instances, and the instance of index [i] is built from id
    [i + 1], the name "obj_" followed by the id in hexadecimal, the tag of
    index [i mod 3] among alpha, beta and gamma, 64 values that are the
    draws of the xorshift32 stream from the id truncated to 32 bits (never
    zero for an id of the population; the generator itself starts from
    123456789 when its seed truncates to zero), each an unsigned 32-bit
    integer over 2^32 - 1 mapped by [(rnd - 0.5) * 2] (which sends the
    least integer, 0, to -1 and the greatest, 2^32 - 1, to 1), bias
    [(i mod 7) * 0.01] and scale [1 + (i mod 5) * 0.01]; the first
    instance's values are the stream from 1. *)
Theorem population_is_deterministic (clock : nat -> Z) (approach : string)
    (count : Z) (retained : list Instance) :
  0 <= count < 4294967296 ->
  exists out retained',
    makeInstances clock {| MakeInstances.approach := approach;
                           MakeInstances.count := count |} retained =
      Some (out, retained') /\
    length out = Z.to_nat count /\
    (forall i : nat, (i < Z.to_nat count)%nat ->
       exists inst,
         out !! i = Some (Some inst) /\
         viewInstance inst =
           {| id := Z.of_nat i + 1;
              name := ("obj_" ++ hex (N.of_nat i + 1))%string;
              values :=
                map (fun j =>
                       ((ofZ (PopulationSpec.drawInteger
                                (toInt32 (Z.of_nat i + 1)) j)
                         / 4294967295 - 0.5) * 2)%float) (seq 0 64);
              bias := (ofZ (Z.of_nat i mod 7) * 0.01)%float;
              scale := (1 + ofZ (Z.of_nat i mod 5) * 0.01)%float;
              createdAt := clock i;
              tag := nth (i mod 3) ["alpha"; "beta"; "gamma"]%string
                       EmptyString |} /\
         toInt32 (Z.of_nat i + 1) <> 0 /\
         (i = 0%nat -> values (viewInstance inst) =
                       PopulationSpec.streamValues 1 64)) /\
    (forall (seed : Z) (n : nat),
       generateInitialValues seed n =
       PopulationSpec.streamValues
         (if toInt32 seed =? 0 then 123456789 else toInt32 seed) n) /\
    (forall (x0 : Z) (j : nat),
       0 <= PopulationSpec.drawInteger x0 j <= 4294967295) /\
    ((ofZ 0 / 4294967295 - 0.5) * 2 = -1)%float /\
    ((ofZ 4294967295 / 4294967295 - 0.5) * 2 = 1)%float.
Proof.
  intros Hcount.
  eexists _, _. split;
    [apply (PopulationFacts.makeInstances_population clock approach count
              retained Hcount)|].
  split; [rewrite length_map, length_seq; reflexivity|].
  split; [|split; [exact generateInitialValues_stream|
                    split; [exact drawInteger_range|
                            split; vm_compute; reflexivity]]].
  intros i Hi.
  exists (PopulationFacts.construct approach (PopulationSpec.seedRecord clock i)).
  split; [rewrite list_lookup_fmap, lookup_seq_lt by lia; reflexivity|].
  rewrite PopulationFacts.view_construct.
  destruct (seedOf_id i ltac:(lia)) as [Hseed Hnz].
  split; [|split; [exact Hnz|]].
  - unfold PopulationSpec.seedRecord. rewrite Hseed. reflexivity.
  - intros ->. reflexivity.
Qed.

Lemma population_is_deterministic_witness :
  exists out retained',
    makeInstances (fun _ => 1700000000000)
      {| MakeInstances.approach := "class"; MakeInstances.count := 3 |} [] =
      Some (out, retained') /\
    length out = 3%nat.
Proof.
  destruct (population_is_deterministic (fun _ => 1700000000000)
              "class"%string 3 [] ltac:(lia))
    as (out & retained' & Hmake & Hlen & _).
  exists out, retained'. split; [exact Hmake|exact Hlen].
Defined.

(** ** The approach value "factory-prototype" *)

(** C10: the parser accepts "factory-prototype" as an approach (with a
    count argument that denotes a finite number of floor at least 1), and
    for that approach [makeInstances] builds every instance with
    [createHeavyThingThin]; whatever the approach, nothing
    [makeInstances] returns or retains was built by
    [createHeavyThingPrototype]. *)
Theorem factory_prototype_is_parsed_and_built_thin {rt : Runtime}
    (clock : nat -> Z) (count : Z) (retained : list Instance)
    (countArg : string) :
  0 <= count < 4294967296 ->
  Main.parseArgs ["--approach"; "factory-prototype"; "--count"; countArg]
    %string =
    (let n := toNumber countArg in
     if Main.Number_isFinite n && (0 <? n)%float
        && negb (Main.Math_floor n =? 0)
     then Some {| Main.approach := "factory-prototype";
                  Main.count := Main.Math_floor n |}
     else None) /\
  (exists out retained',
     makeInstances clock {| MakeInstances.approach := "factory-prototype";
                            MakeInstances.count := count |} retained =
       Some (out, retained') /\
     length out = Z.to_nat count /\
     forall i : nat, (i < Z.to_nat count)%nat ->
       exists state, out !! i = Some (Some (ViaThin state))) /\
  (forall approach : string,
   exists out added,
     makeInstances clock {| MakeInstances.approach := approach;
                            MakeInstances.count := count |} retained =
       Some (out, retained ++ added) /\
     forall o, ~ In (Some (ViaPrototype o)) out /\ ~ In (ViaPrototype o) added).
Proof.
  intros Hcount. split; [|split].
  - unfold Main.parseArgs, Main.parseArgsFrom. cbn [String.eqb Ascii.eqb
      Bool.eqb orb].
    destruct (Main.Number_isFinite (toNumber countArg)
              && (0 <? toNumber countArg)%float); [|reflexivity].
    cbn [andb orb String.eqb].
    destruct (Main.Math_floor (toNumber countArg) =? 0); reflexivity.
  - eexists _, _. split;
      [apply (PopulationFacts.makeInstances_population clock _ count
                retained Hcount)|].
    split; [rewrite length_map, length_seq; reflexivity|].
    intros i Hi. eexists.
    rewrite list_lookup_fmap, lookup_seq_lt by lia. reflexivity.
  - intros approach. eexists _, _. split;
      [apply (PopulationFacts.makeInstances_population clock approach count
                retained Hcount)|].
    intros o. split; intros Hin; apply in_map_iff in Hin;
      destruct Hin as (i & Hi & _); unfold PopulationFacts.construct in Hi;
      destruct (String.eqb approach "class");
      try destruct (String.eqb approach "factory"); discriminate Hi.
Qed.

Lemma factory_prototype_is_parsed_and_built_thin_witness :
  let rt := {| toFixed := fun _ _ => EmptyString;
               toNumber := fun _ => 3%float |} in
  Main.parseArgs ["--approach"; "factory-prototype"; "--count"; "3"]%string =
    Some {| Main.approach := "factory-prototype"; Main.count := 3 |} /\
  exists out retained',
    makeInstances (fun _ => 1700000000000)
      {| MakeInstances.approach := "factory-prototype";
         MakeInstances.count := 3 |} [] = Some (out, retained') /\
    forall i : nat, (i < 3)%nat ->
      exists state, out !! i = Some (Some (ViaThin state)).
Proof.
  intros rt.
  destruct (@factory_prototype_is_parsed_and_built_thin rt
              (fun _ => 1700000000000) 3 [] "3"%string ltac:(lia))
    as (Hparse & (out & retained' & Hmake & _ & Hthin) & _).
  split; [exact Hparse|].
  exists out, retained'. split; [exact Hmake|exact Hthin].
Defined.

(** ** Loops that rewrite an array slot by slot *)

Lemma get_app_drop (pre l : list float) (i : nat) :
  length pre = i -> get (pre ++ drop i l) i = get l i.
Proof.
  intros Hlen. unfold get.
  rewrite lookup_app_r by lia. rewrite Hlen, Nat.sub_diag.
  rewrite lookup_drop, Nat.add_0_r. reflexivity.
Qed.

(** A loop that threads a generator state [x] and rewrites slot [i] from
    its old content and the new state. *)
Lemma update_loop_state {X : Type} (step : X -> X)
    (f : nat -> X -> float -> float) (l : list float) (x0 : X) :
  for_loop 0 (length l)
    (fun i '(x, vals) =>
       let x' := step x in (x', <[i := f i x' (get vals i)]> vals)) (x0, l) =
  (Nat.iter (length l) step x0,
   imap (fun i v => f i (Nat.iter (S i) step x0) v) l).
Proof.
  set (g := fun i v => f i (Nat.iter (S i) step x0) v).
  pose (P := fun (i : nat) (st : X * list float) =>
    st = (Nat.iter i step x0, imap g (take i l) ++ drop i l)).
  match goal with
  | |- for_loop 0 ?n ?body ?init = _ =>
      assert (HP : P (0 + n)%nat (for_loop 0 n body init))
  end.
  { apply for_loop_inv; [reflexivity|].
    intros i [x vals] Hi HP. unfold P in *. injection HP as -> ->.
    cbv zeta. rewrite <- Nat.iter_succ. f_equal.
    destruct (lookup_lt_is_Some_2 l i ltac:(lia)) as [v Hv].
    rewrite get_app_drop by (rewrite length_imap, length_take; lia).
    rewrite insert_app_r_alt by (rewrite length_imap, length_take; lia).
    rewrite length_imap, length_take, Nat.min_l, Nat.sub_diag by lia.
    rewrite (drop_S l v i Hv), (take_S_r l i v Hv). simpl.
    rewrite imap_app, <- app_assoc. simpl.
    rewrite length_take, Nat.min_l, Nat.add_0_r by lia.
    unfold get. rewrite Hv. reflexivity. }
  unfold P in HP. simpl Nat.add in HP.
  rewrite firstn_all, drop_all, app_nil_r in HP. exact HP.
Qed.

(** The same without a generator state. *)
Lemma update_loop (f : nat -> float -> float) (l : list float) :
  for_loop 0 (length l) (fun i vals => <[i := f i (get vals i)]> vals) l =
  imap f l.
Proof.
  pose proof (update_loop_state (fun u : unit => u) (fun i _ v => f i v) l tt)
    as H.
  cbv zeta in H.
  assert (E : forall n (st : unit * list float),
    for_loop 0 n (fun i '(x, vals) => (x, <[i := f i (get vals i)]> vals)) st =
    (fst st, for_loop 0 n (fun i vals => <[i := f i (get vals i)]> vals)
               (snd st))).
  { intros n. generalize 0%nat.
    induction n as [|n IH]; intros from [u vals]; [reflexivity|].
    simpl. rewrite IH. reflexivity. }
  rewrite E in H. injection H as _ H. exact H.
Qed.

(** ** scramble *)

Module ScrambleSpec.
Import PopulationSpec.

(** The generator state after the eight warm-up rounds. *)
Definition scrambleStart (seed : float) : Z :=
  Nat.iter 8 xorshift32
    (if toInt32F seed =? 0 then 2463534242 else toInt32F seed).

(** What [scramble] adds to the element of index [i]: it depends on the
    generator state and the index alone. *)
Definition perturbation (x0 : Z) (i : nat) : float :=
  let x := Nat.iter (S i) xorshift32 x0 in
  let rnd := (ofZ (ushr x 0) / 4294967295)%float in
  let sign := if band x 1 =? 0 then 1%float else (-1)%float in
  (sign * (rnd * 0.01 + ofZ (Z.of_nat i mod 7) * 0.0001))%float.

End ScrambleSpec.

Lemma for_loop_iter {X : Type} (step : X -> X) (from count : nat) (x : X) :
  for_loop from count (fun _ x => step x) x = Nat.iter count step x.
Proof.
  revert from x. induction count as [|c IH]; intros from x; [reflexivity|].
  simpl for_loop. rewrite IH, Nat.iter_succ_r. reflexivity.
Qed.

(** [doScramble] in closed form. *)
Lemma doScramble_closed (state : ThinState) (seed : float) :
  let x0 := ScrambleSpec.scrambleStart seed in
  let xn := Nat.iter (length (values state)) PopulationSpec.xorshift32 x0 in
  doScramble state seed =
  {| id := id state; name := name state;
     values :=
       imap (fun i v => (v + ScrambleSpec.perturbation x0 i)%float)
         (values state);
     bias := (bias state + ofZ (band xn 255 - 128) * 1e-6)%float;
     scale :=
       (scale state * (1 + ofZ (band (ushr xn 8) 255 - 128) * 1e-6))%float;
     createdAt := createdAt state; tag := tag state |}.
Proof.
  intros x0 xn. subst xn x0.
  unfold doScramble, ScrambleSpec.scrambleStart, ScrambleSpec.perturbation.
  set (start := if toInt32F seed =? 0 then 2463534242 else toInt32F seed).
  pose (step := fun x : Z =>
    let x := bxor x (shl x 13) in
    let x := bxor x (ushr x 17) in
    let x := bxor x (shl x 5) in
    bor0 x).
  change PopulationSpec.xorshift32 with step.
  match goal with
  | |- context [for_loop 0 8 ?warm start] =>
      change (for_loop 0 8 warm start)
        with (for_loop 0 8 (fun _ y => step y) start);
      rewrite (for_loop_iter step 0 8 start)
  end.
  set (x0 := Nat.iter 8 step start).
  match goal with
  | |- context [for_loop 0 (length (values state)) ?round
                  (x0, values state)] =>
      change round with
        (fun (i : nat) '(x, vals) =>
           let x' := step x in
           (x', <[i := (fun i x v =>
                          (v + (if (band x 1 =? 0)%Z then 1 else -1)
                               * (ofZ (ushr x 0) / 4294967295 * 0.01
                                  + ofZ (Z.of_nat i mod 7) * 0.0001))%float)
                         i x' (get vals i)]> vals))
  end.
  rewrite update_loop_state. cbv beta zeta. reflexivity.
Qed.

Lemma class_scramble (this : HeavyClass.HeavyThing) (seed : float) :
  viewClass (HeavyClass.scramble this seed) = doScramble (viewClass this) seed.
Proof.
  destruct this as [i nm vs b sc [ca tg]].
  unfold HeavyClass.scramble, doScramble; fields; loops; reflexivity.
Qed.

Lemma closure_scramble (env : Closure) (seed : float) :
  viewClosure (HeavyFactory.scramble env seed) =
  doScramble (viewClosure env) seed.
Proof.
  destruct env as [i nm vs b sc [ca tg]].
  unfold HeavyFactory.scramble, doScramble; fields; loops; reflexivity.
Qed.

(** Refuting an equation between two float literals. *)
Ltac float_discriminate H :=
  apply (f_equal Prim2SF) in H; vm_compute in H; discriminate H.

(** C3, as amended: scramble is a function of the seed and of the values,
    bias and scale it starts from, the same under each strategy: two state
    records with the same values, bias and scale end with the same values,
    bias and scale.  What depends on the seed and the length alone is what
    is added: element [i] grows by a perturbation fixed by the seed and
    [i], and bias and scale move by amounts fixed by the seed and the
    length.  A seed that truncates to 0 starts the generator from
    2463534242. *)
Theorem scramble_is_determined_by_state_and_seed (s1 s2 : ThinState)
    (seed : float) :
  values s1 = values s2 -> bias s1 = bias s2 -> scale s1 = scale s2 ->
  (values (doScramble s1 seed) = values (doScramble s2 seed) /\
   bias (doScramble s1 seed) = bias (doScramble s2 seed) /\
   scale (doScramble s1 seed) = scale (doScramble s2 seed)) /\
  (let x0 := ScrambleSpec.scrambleStart seed in
   let xn := Nat.iter (length (values s1)) PopulationSpec.xorshift32 x0 in
   values (doScramble s1 seed) =
     imap (fun i v => (v + ScrambleSpec.perturbation x0 i)%float)
       (values s1) /\
   bias (doScramble s1 seed) =
     (bias s1 + ofZ (band xn 255 - 128) * 1e-6)%float /\
   scale (doScramble s1 seed) =
     (scale s1 * (1 + ofZ (band (ushr xn 8) 255 - 128) * 1e-6))%float) /\
  (forall this : HeavyClass.HeavyThing,
     viewClass (HeavyClass.scramble this seed) =
     doScramble (viewClass this) seed) /\
  (forall env : Closure,
     viewClosure (HeavyFactory.scramble env seed) =
     doScramble (viewClosure env) seed) /\
  (toInt32F seed = 0 ->
   ScrambleSpec.scrambleStart seed =
   Nat.iter 8 PopulationSpec.xorshift32 2463534242) /\
  doScramble s1 0 = doScramble s1 2463534242.
Proof.
  intros Hvalues Hbias Hscale.
  pose proof (doScramble_closed s1 seed) as H1.
  pose proof (doScramble_closed s2 seed) as H2.
  cbv zeta in H1, H2.
  split; [|split; [|split; [|split; [|split]]]].
  - rewrite H1, H2. cbn [values bias scale].
    rewrite Hvalues, Hbias, Hscale. repeat split; reflexivity.
  - cbv zeta. rewrite H1. cbn [values bias scale]. repeat split; reflexivity.
  - intros this. apply class_scramble.
  - intros env. apply closure_scramble.
  - intros Hzero. unfold ScrambleSpec.scrambleStart. rewrite Hzero.
    reflexivity.
  - pose proof (doScramble_closed s1 0) as Hz.
    pose proof (doScramble_closed s1 2463534242) as Hc.
    cbv zeta in Hz, Hc. rewrite Hz, Hc.
    replace (ScrambleSpec.scrambleStart 2463534242)
      with (ScrambleSpec.scrambleStart 0) by (vm_compute; reflexivity).
    reflexivity.
Qed.

Lemma scramble_is_determined_by_state_and_seed_witness :
  let s1 :=
    {| id := 1; name := "obj_1"; values := [0.25; -0.5]%float; bias := 0;
       scale := 1; createdAt := 1700000000000; tag := "alpha" |} in
  let s2 :=
    {| id := 2; name := "another"; values := [0.25; -0.5]%float; bias := 0;
       scale := 1; createdAt := 1700000000001; tag := "beta" |} in
  values (doScramble s1 42) = values (doScramble s2 42) /\
  bias (doScramble s1 42) = bias (doScramble s2 42) /\
  scale (doScramble s1 42) = scale (doScramble s2 42).
Proof.
  intros s1 s2.
  exact (proj1 (scramble_is_determined_by_state_and_seed s1 s2 42
                  eq_refl eq_refl eq_refl)).
Defined.

(** C3, as stated, fails: two state records whose values have the same
    length but differ end, under the same seed, with different values. *)
Lemma scramble_depends_on_the_values :
  ~ (forall (s1 s2 : ThinState) (seed : float),
       length (values s1) = length (values s2) ->
       values (doScramble s1 seed) = values (doScramble s2 seed) /\
       bias (doScramble s1 seed) = bias (doScramble s2 seed) /\
       scale (doScramble s1 seed) = scale (doScramble s2 seed)).
Proof.
  intros H.
  destruct (H {| id := 1; name := "obj_1"; values := [0%float]; bias := 0;
                 scale := 1; createdAt := 1700000000000; tag := "alpha" |}
              {| id := 1; name := "obj_1"; values := [1%float]; bias := 0;
                 scale := 1; createdAt := 1700000000000; tag := "alpha" |}
              1%float eq_refl) as [Hvalues _].
  apply (f_equal (fun l => get l 0)) in Hvalues.
  float_discriminate Hvalues.
Qed.

(** ** rollingAverage *)

Module RollingSpec.

(** The running sum [doRollingAverage] holds after the elements of index
    below [k] went through its first loop with window [w]. *)
Fixpoint runningAfter (w : nat) (vs : list float) (k : nat) : float :=
  match k with
  | O => 0%float
  | S i =>
      let running := (runningAfter w vs i + get vs i)%float in
      if (w <=? i)%nat then (running - get vs (i - w))%float else running
  end.

(** The count the running sum of index [i] is divided by. *)
Definition countAt (w i : nat) : nat :=
  if (i + 1 <? w)%nat then (i + 1)%nat else w.

End RollingSpec.

Lemma imap_ignore_index {A B : Type} (h : A -> B) (l : list A) :
  imap (fun _ v => h v) l = map h l.
Proof. exact (imap_const h l). Qed.

Lemma doRollingAverage_closed (state : ThinState) (windowSize : float) :
  let n := length (values state) in
  let w := Z.to_nat (effectiveWindow n windowSize) in
  doRollingAverage state windowSize =
  map (fun i =>
         (RollingSpec.runningAfter w (values state) (S i)
          / ofZ (Z.of_nat (RollingSpec.countAt w i))
          * scale state + bias state * 0.001)%float) (seq 0 n).
Proof.
  intros n w. unfold doRollingAverage. fold n. fold w.
  set (g := fun i =>
    (RollingSpec.runningAfter w (values state) (S i)
     / ofZ (Z.of_nat (RollingSpec.countAt w i)))%float).
  match goal with
  | |- context [for_loop 0 n ?first (newArray n, 0%float)] =>
      assert (H : for_loop 0 n first (newArray n, 0%float) =
                  (map g (seq 0 n),
                   RollingSpec.runningAfter w (values state) n))
  end.
  { pose (P := fun (i : nat) (st : list float * float) =>
      st = (map g (seq 0 i) ++ replicate (n - i) nan,
            RollingSpec.runningAfter w (values state) i)).
    match goal with
    | |- for_loop 0 n ?first ?init = _ =>
        assert (HP : P (0 + n)%nat (for_loop 0 n first init))
    end.
    { apply for_loop_inv.
      - unfold P, newArray. rewrite Nat.sub_0_r. reflexivity.
      - intros i [output running] Hi HP. unfold P in *.
        injection HP as -> ->.
        rewrite <- (insert_prefix g nan n i) by lia. reflexivity. }
    unfold P in HP. simpl Nat.add in HP.
    rewrite Nat.sub_diag, app_nil_r in HP. exact HP. }
  rewrite H. clear H.
  replace n with (length (map g (seq 0 n))) at 1
    by (rewrite length_map, length_seq; reflexivity).
  rewrite (update_loop
             (fun _ v => (v * scale state + bias state * 0.001)%float)).
  rewrite imap_ignore_index, map_map. reflexivity.
Qed.

Lemma effectiveWindow_range (n : nat) (windowSize : float) :
  1 <= effectiveWindow n windowSize <= Z.max 1 (Z.of_nat n).
Proof. unfold effectiveWindow. lia. Qed.

(** C7, as amended: [rollingAverage(state, 1)] returns as many elements as
    values holds, and its element [i] is [r / 1 * scale + bias * 0.001]
    for the running sum [r] the loop holds there: [0 + values[0]] at index
    0 and [(previous sum + values[i]) - values[i-1]] afterwards, which is
    [values[i]] only where those floating-point additions and subtractions
    are exact.  For every window argument the window used lies between 1
    and [max(1, n)], the result has the length of values, and the state is
    left as it was. *)
Theorem rollingAverage_window_one_and_clamp {rt : Runtime}
    (state : ThinState) (windowSize : float) :
  length (doRollingAverage state windowSize) = length (values state) /\
  doRollingAverage state 1 =
    map (fun i =>
           (RollingSpec.runningAfter 1 (values state) (S i) / 1
            * scale state + bias state * 0.001)%float)
      (seq 0 (length (values state))) /\
  RollingSpec.runningAfter 1 (values state) 1 =
    (0 + get (values state) 0)%float /\
  (forall i : nat,
     RollingSpec.runningAfter 1 (values state) (S (S i)) =
     (RollingSpec.runningAfter 1 (values state) (S i)
      + get (values state) (S i) - get (values state) i)%float) /\
  1 <= effectiveWindow (length (values state)) windowSize
    <= Z.max 1 (Z.of_nat (length (values state))) /\
  snd (invoke (RollingAverage windowSize) state) = state.
Proof.
  split; [|split; [|split; [|split; [|split]]]].
  - pose proof (doRollingAverage_closed state windowSize) as H.
    cbv zeta in H. rewrite H, length_map, length_seq. reflexivity.
  - pose proof (doRollingAverage_closed state 1) as H. cbv zeta in H.
    rewrite H.
    replace (effectiveWindow (length (values state)) 1) with 1.
    + apply map_ext. intros i. unfold RollingSpec.countAt.
      replace (i + 1 <? Z.to_nat 1)%nat with false
        by (symmetry; apply Nat.ltb_ge; lia).
      reflexivity.
    + unfold effectiveWindow.
      replace (toInt32F 1) with 1 by (vm_compute; reflexivity). lia.
  - reflexivity.
  - intros i. simpl RollingSpec.runningAfter. rewrite Nat.sub_0_r.
    reflexivity.
  - apply effectiveWindow_range.
  - reflexivity.
Qed.

(** C7, as stated, fails: with values 0.1 and 0.2, scale 1 and bias 0, the
    second element of [rollingAverage(state, 1)] is
    [(0.1 + 0.2) - 0.1 = 0.20000000000000004], not 0.2. *)
Lemma rollingAverage_window_one_drifts :
  ~ (forall (state : ThinState) (i : nat) (v : float),
       values state !! i = Some v ->
       doRollingAverage state 1 !! i =
       Some (v * scale state + bias state * 0.001)%float).
Proof.
  intros H.
  specialize (H {| id := 1; name := "obj_1"; values := [0.1; 0.2]%float;
                   bias := 0; scale := 1; createdAt := 1700000000000;
                   tag := "alpha" |} 1%nat 0.2%float eq_refl).
  apply (f_equal (fun o => match o with Some x => x | None => nan end)) in H.
  float_discriminate H.
Qed.

(** ** normalizeInPlace *)

Module NormalizeSpec.

(** The mean, the sample variance and the standard deviation as
    [doNormalizeInPlace] computes them. *)
Definition meanOf (vs : list float) : float :=
  let n := length vs in
  let sum := for_loop 0 n (fun i sum => (sum + get vs i)%float) 0%float in
  if (0 <? n)%nat then (sum / ofZ (Z.of_nat n))%float else 0%float.

Definition varianceOf (vs : list float) : float :=
  let n := length vs in
  let mean := meanOf vs in
  let sq :=
    for_loop 0 n (fun i sq =>
      let d := (get vs i - mean)%float in (sq + d * d)%float) 0%float in
  if (1 <? n)%nat then (sq / ofZ (Z.of_nat n - 1))%float else 0%float.

Definition stdOf (vs : list float) : float :=
  let variance := varianceOf vs in
  if (0 <? variance)%float then sqrt variance else 1%float.

(** The value an element is replaced by. *)
Definition normalized (mean std : float) (v : float) : float :=
  Math_max (-8) (Math_min 8 ((v - mean) / (std + 1e-6)))%float.

End NormalizeSpec.

Lemma doNormalizeInPlace_closed (state : ThinState) :
  let mean := NormalizeSpec.meanOf (values state) in
  let std := NormalizeSpec.stdOf (values state) in
  doNormalizeInPlace state =
  {| id := id state; name := name state;
     values := map (NormalizeSpec.normalized mean std) (values state);
     bias := (bias state * 0.9 + mean * 0.1)%float;
     scale := (scale state * 0.9 + (1 / (std + 1e-6)) * 0.1)%float;
     createdAt := createdAt state; tag := tag state |}.
Proof.
  intros mean std. unfold doNormalizeInPlace.
  cbv zeta.
  fold (NormalizeSpec.meanOf (values state)). fold mean.
  match goal with
  | |- context [for_loop 0 (length (values state)) ?body (values state)] =>
      change body with
        (fun (i : nat) (vals : list float) =>
           <[i := (fun _ v => NormalizeSpec.normalized mean std v) i
                    (get vals i)]> vals)
  end.
  rewrite (update_loop (fun _ v => NormalizeSpec.normalized mean std v)).
  rewrite imap_ignore_index. reflexivity.
Qed.

(** A clamped number is NaN or lies between -8 and 8. *)
Lemma clamp_nan_or_in_range (x : float) :
  let c := Math_max (-8) (Math_min 8 x) in
  is_nan c = true \/ ((-8 <=? c) && (c <=? 8))%float = true.
Proof.
  cbv zeta. unfold Math_min.
  replace (is_nan 8) with false by (vm_compute; reflexivity).
  replace (get_sign 8) with false by (vm_compute; reflexivity).
  cbn [orb].
  destruct (is_nan x) eqn:Hnan; [left; vm_compute; reflexivity|].
  assert (Hmin : exists m, is_nan m = false /\ (m <=? 8)%float = true /\
            (if (x <=? 8)%float then if (8 <=? x)%float then x else x
             else 8%float) = m).
  { destruct (x <=? 8)%float eqn:Hle.
    - exists x. split; [exact Hnan|]. split; [exact Hle|].
      destruct (8 <=? x)%float; reflexivity.
    - exists 8%float. repeat split; vm_compute; reflexivity. }
  destruct Hmin as (m & Hmnan & Hm8 & ->).
  unfold Math_max.
  replace (is_nan (-8)) with false by (vm_compute; reflexivity).
  replace (get_sign (-8)) with true by (vm_compute; reflexivity).
  rewrite Hmnan. cbn [orb]. right.
  destruct (-8 <=? m)%float eqn:Hlow.
  - destruct (m <=? -8)%float; rewrite Hlow, Hm8; reflexivity.
  - vm_compute. reflexivity.
Qed.

(** ** Rounding in binary64 *)

(** Binary64 rounding, read off the specification of the primitive
    floats: a right shift to the canonical exponent keeps a mantissa that
    is not negative so, and keeps a number at or above the least positive
    binary64 number there. *)
Module FloatFacts.

Lemma digits2_pos_bounds (p : positive) :
  2 ^ (Zpos (digits2_pos p) - 1) <= Zpos p < 2 ^ Zpos (digits2_pos p).
Proof.
  induction p as [p IH|p IH|]; cbn [digits2_pos].
  - rewrite Pos2Z.inj_succ.
    replace (Z.succ (Z.pos (digits2_pos p)) - 1) with (Z.succ (Z.pos (digits2_pos p) - 1)) by lia.
    rewrite !Z.pow_succ_r by lia. lia.
  - rewrite Pos2Z.inj_succ.
    replace (Z.succ (Z.pos (digits2_pos p)) - 1) with (Z.succ (Z.pos (digits2_pos p) - 1)) by lia.
    rewrite !Z.pow_succ_r by lia. lia.
  - cbn. lia.
Qed.

Lemma shr_1_halves (mrs : shr_record) :
  0 <= shr_m mrs -> shr_m (shr_1 mrs) = shr_m mrs / 2.
Proof.
  destruct mrs as [m r s]. cbn [shr_m]. intros Hm.
  rewrite <- Z.div2_div.
  destruct m as [|p|p]; [reflexivity| |lia].
  destruct p; reflexivity.
Qed.

Lemma pow2_xO (p : positive) : 2 ^ Z.pos p~0 = 2 ^ Z.pos p * 2 ^ Z.pos p.
Proof.
  replace (Z.pos p~0) with (Z.pos p + Z.pos p) by lia.
  apply Z.pow_add_r; lia.
Qed.

Lemma pow2_xI (p : positive) :
  2 ^ Z.pos p~1 = 2 * (2 ^ Z.pos p * 2 ^ Z.pos p).
Proof.
  replace (Z.pos p~1) with (1 + (Z.pos p + Z.pos p)) by lia.
  rewrite !Z.pow_add_r by lia. reflexivity.
Qed.

Lemma iter_pos_shr_1 (p : positive) :
  forall mrs : shr_record,
    0 <= shr_m mrs ->
    shr_m (SpecFloat.iter_pos shr_1 p mrs) = shr_m mrs / 2 ^ Zpos p.
Proof.
  induction p as [p IH|p IH|]; intros mrs Hm; cbn [SpecFloat.iter_pos].
  - assert (H1 : 0 <= shr_m (shr_1 mrs))
      by (rewrite shr_1_halves by exact Hm; apply Z.div_pos; lia).
    assert (H2 : 0 <= shr_m (SpecFloat.iter_pos shr_1 p (shr_1 mrs)))
      by (rewrite IH by exact H1; apply Z.div_pos; lia).
    rewrite IH, IH, shr_1_halves by assumption.
    rewrite !Z.div_div by lia. rewrite pow2_xI. reflexivity.
  - assert (H2 : 0 <= shr_m (SpecFloat.iter_pos shr_1 p mrs))
      by (rewrite IH by exact Hm; apply Z.div_pos; lia).
    rewrite IH, IH by assumption.
    rewrite !Z.div_div by lia. rewrite pow2_xO. reflexivity.
  - rewrite shr_1_halves by exact Hm. reflexivity.
Qed.

(** The number [m * 2^e] is at least the least positive binary64 number. *)
Definition above (m e : Z) : Prop :=
  exists k, 0 <= k /\ 2 ^ k <= m /\ SpecFloat.emin prec emax <= k + e.

Lemma shr_record_of_loc_m (m : Z) (l : location) :
  shr_m (shr_record_of_loc m l) = m.
Proof. destruct l as [|[| |]]; reflexivity. Qed.

Lemma shr_fexp_nonneg (m e : Z) (l : location) :
  0 <= m -> 0 <= shr_m (fst (shr_fexp prec emax m e l)).
Proof.
  intros Hm. unfold shr_fexp, shr.
  destruct (fexp prec emax (Zdigits2 m + e) - e) as [|n|n]; cbn [fst];
    rewrite ?iter_pos_shr_1; rewrite ?shr_record_of_loc_m;
    try apply Z.div_pos; lia.
Qed.

Lemma shr_fexp_above (m e : Z) (l : location) :
  above m e ->
  above (shr_m (fst (shr_fexp prec emax m e l)))
    (snd (shr_fexp prec emax m e l)).
Proof.
  intros (k & Hk & Hpow & Hemin).
  assert (Hpos : 0 < 2 ^ k) by (apply Z.pow_pos_nonneg; lia).
  destruct m as [|p|p]; try lia.
  unfold shr_fexp, shr. cbn [Zdigits2].
  pose proof (digits2_pos_bounds p) as [Hlow Hhigh].
  set (d := Z.pos (digits2_pos p)) in *.
  assert (Hkd : k < d).
  { apply (Z.pow_lt_mono_r_iff 2); lia. }
  destruct (fexp prec emax (d + e) - e) as [|n|n] eqn:Hn; cbn [fst snd];
    rewrite ?shr_record_of_loc_m; try (exists k; repeat split; lia).
  rewrite iter_pos_shr_1 by (rewrite shr_record_of_loc_m; lia).
  rewrite shr_record_of_loc_m.
  unfold fexp, SpecFloat.emin, prec, emax in *.
  exists (d - 1 - Z.pos n). unfold SpecFloat.emin, prec, emax.
  split; [lia|]. split; [|lia].
  apply Z.div_le_lower_bound; [apply Z.pow_pos_nonneg; lia|].
  rewrite <- Z.pow_add_r by lia.
  replace (Z.pos n + (d - 1 - Z.pos n)) with (d - 1) by lia. exact Hlow.
Qed.

Lemma round_nearest_even_ge (m : Z) (l : location) :
  m <= round_nearest_even m l.
Proof.
  destruct l as [|[| |]]; cbn [round_nearest_even]; try lia.
  destruct (Z.even m); lia.
Qed.

(** The sign and kind of a rounded result. *)
Definition sign_ok (r : spec_float) : Prop :=
  match r with
  | S754_nan => False
  | S754_infinity s => s = false
  | S754_finite s _ _ => s = false
  | S754_zero _ => True
  end.

Definition positive_sf (r : spec_float) : Prop :=
  match r with
  | S754_infinity false => True
  | S754_finite false _ _ => True
  | _ => False
  end.

Lemma binary_round_aux_nonneg (m e : Z) (l : location) :
  0 <= m -> sign_ok (binary_round_aux prec emax false m e l).
Proof.
  intros Hm. unfold binary_round_aux.
  pose proof (shr_fexp_nonneg m e l Hm) as H1.
  destruct (shr_fexp prec emax m e l) as [mrs' e']. cbn [fst] in H1.
  pose proof (round_nearest_even_ge (shr_m mrs') (loc_of_shr_record mrs'))
    as Hr.
  pose proof (shr_fexp_nonneg
                (round_nearest_even (shr_m mrs') (loc_of_shr_record mrs'))
                e' loc_Exact ltac:(lia)) as H2.
  destruct (shr_fexp prec emax _ e' loc_Exact) as [mrs'' e''].
  cbn [fst] in H2.
  destruct (shr_m mrs'') as [|p|p]; [exact I| |lia].
  destruct (e'' <=? emax - prec); reflexivity.
Qed.

Lemma binary_round_aux_above (m e : Z) (l : location) :
  above m e -> positive_sf (binary_round_aux prec emax false m e l).
Proof.
  intros Hab. unfold binary_round_aux.
  pose proof (shr_fexp_above m e l Hab) as H1.
  destruct (shr_fexp prec emax m e l) as [mrs' e']. cbn [fst snd] in H1.
  assert (Hr : above (round_nearest_even (shr_m mrs')
                        (loc_of_shr_record mrs')) e').
  { destruct H1 as (k & Hk & Hpow & Hemin). exists k.
    pose proof (round_nearest_even_ge (shr_m mrs') (loc_of_shr_record mrs')).
    repeat split; lia. }
  pose proof (shr_fexp_above _ e' loc_Exact Hr) as H2.
  destruct (shr_fexp prec emax _ e' loc_Exact) as [mrs'' e''].
  cbn [fst snd] in H2. destruct H2 as (k & Hk & Hpow & Hemin).
  assert (Hpos : 0 < 2 ^ k) by (apply Z.pow_pos_nonneg; lia).
  destruct (shr_m mrs'') as [|p|p]; try lia.
  destruct (e'' <=? emax - prec); exact I.
Qed.

Lemma SFsqrt_sign_ok (x : spec_float) :
  positive_sf x -> sign_ok (SFsqrt prec emax x).
Proof.
  destruct x as [s|[|]| |[|] m e]; cbn [positive_sf]; try contradiction;
    intros _; [reflexivity|].
  unfold SFsqrt, SFsqrt_core_binary.
  set (e' := Z.min _ _). set (s := e - 2 * e').
  set (m' := match s with Z0 => Z.pos m | Z.pos _ => Z.shiftl (Z.pos m) s
             | Z.neg _ => 0 end).
  assert (Hm' : 0 <= m').
  { unfold m'. destruct s; try lia. apply Z.shiftl_nonneg. lia. }
  pose proof (Z.sqrtrem_spec m' Hm') as Hspec.
  destruct (Z.sqrtrem m') as [q r]. destruct Hspec as [_ Hr].
  apply binary_round_aux_nonneg. lia.
Qed.

Lemma pos_iter_xO (m d : positive) :
  Z.pos (Pos.iter xO m d) = Z.pos m * 2 ^ Z.pos d.
Proof.
  induction d as [|d IH] using Pos.peano_ind.
  - cbn [Pos.iter]. rewrite Pos2Z.inj_xO. change (2 ^ 1) with 2. lia.
  - rewrite Pos.iter_succ, Pos2Z.inj_succ, Z.pow_succ_r by lia.
    rewrite Pos2Z.inj_xO, IH. lia.
Qed.

Lemma shl_align_above (m : positive) (e target : Z) :
  above (Z.pos m) e ->
  above (Z.pos (fst (shl_align m e target))) (snd (shl_align m e target)).
Proof.
  intros (k & Hk & Hpow & Hemin). unfold shl_align.
  destruct (target - e) as [|d|d] eqn:Hd; cbn [fst snd];
    try (exists k; repeat split; assumption).
  exists (k + Z.pos d). rewrite pos_iter_xO, Z.pow_add_r by lia.
  assert (0 < 2 ^ Z.pos d) by (apply Z.pow_pos_nonneg; lia).
  split; [lia|]. split; [nia|lia].
Qed.

Lemma shl_align_exponent (m : positive) (e target : Z) :
  target <= e -> snd (shl_align m e target) = target.
Proof.
  intros Hle. unfold shl_align.
  destruct (target - e) as [|d|d] eqn:Hd; cbn [snd]; lia.
Qed.

Lemma binary_round_above (m : positive) (e : Z) :
  above (Z.pos m) e -> positive_sf (binary_round prec emax false m e).
Proof.
  intros Hab. unfold binary_round.
  pose proof (shl_align_above m e
                (fexp prec emax (Z.pos (digits2_pos m) + e)) Hab) as H.
  destruct (shl_align m e _) as [mz ez]. cbn [fst snd] in H.
  apply binary_round_aux_above, H.
Qed.

(** Adding 1e-6 to a number that is not negative gives a positive
    number. *)
Lemma SFadd_epsilon_positive (r : spec_float) :
  sign_ok r ->
  positive_sf (SFadd prec emax r (S754_finite false 4722366482869645 (-72))).
Proof.
  destruct r as [s|[|]| |[|] m e]; cbn [sign_ok]; try contradiction;
    try discriminate; intros _; try exact I.
  unfold SFadd. cbn [cond_Zopp].
  set (ez := Z.min e (-72)).
  set (p1 := fst (shl_align m e ez)).
  pose proof (shl_align_above 4722366482869645 (-72) ez) as Hc.
  rewrite (shl_align_exponent 4722366482869645 (-72) ez) in Hc
    by (unfold ez; lia).
  set (p2 := fst (shl_align 4722366482869645 (-72) ez)) in *.
  change (Z.pos p1 + Z.pos p2) with (Z.pos (p1 + p2)).
  cbn [binary_normalize]. apply binary_round_above.
  destruct Hc as (k & Hk & Hpow & Hemin).
  { exists 52. unfold SpecFloat.emin, prec, emax. repeat split; lia. }
  exists k. repeat split; try assumption. lia.
Qed.

Lemma ltb_zero_positive (x : float) :
  (0 <? x)%float = true <-> positive_sf (Prim2SF x).
Proof.
  rewrite ltb_spec.
  replace (Prim2SF 0) with (S754_zero false) by (vm_compute; reflexivity).
  destruct (Prim2SF x) as [s|[|]| |[|] m e]; cbn; split;
    intros H; try exact I; try reflexivity; try discriminate;
    try contradiction.
Qed.

(** The divisor of [normalizeInPlace] is above zero whatever the
    variance. *)
Lemma sqrt_plus_epsilon_positive (v : float) :
  (0 <? v)%float = true -> (0 <? sqrt v + 1e-6)%float = true.
Proof.
  intros Hv. apply ltb_zero_positive. apply ltb_zero_positive in Hv.
  rewrite add_spec, sqrt_spec.
  replace (Prim2SF 1e-6) with (S754_finite false 4722366482869645 (-72))
    by (vm_compute; reflexivity).
  apply SFadd_epsilon_positive, SFsqrt_sign_ok, Hv.
Qed.

End FloatFacts.

(** C5, as amended: [normalizeInPlace] never divides by zero.  For every
    state record the divisor [std + 1e-6], which it uses for every element
    and for the new scale, is above 0; the standard deviation is the square
    root of the variance when the variance is above 0 and 1 otherwise, as
    for empty and single-element values, whose variance is 0.  The call is
    defined on every state record and keeps the length of values; every
    element after it is the clamped quotient
    [(value - mean) / (std + 1e-6)], which is NaN or lies in [-8, 8]. *)
Theorem normalizeInPlace_clamps_or_yields_nan (state : ThinState) :
  let mean := NormalizeSpec.meanOf (values state) in
  let std := NormalizeSpec.stdOf (values state) in
  let after := doNormalizeInPlace state in
  (0 <? std + 1e-6)%float = true /\
  length (values after) = length (values state) /\
  values after =
    map (fun v => Math_max (-8) (Math_min 8 ((v - mean) / (std + 1e-6)))%float)
      (values state) /\
  scale after = (scale state * 0.9 + (1 / (std + 1e-6)) * 0.1)%float /\
  (forall v : float, In v (values after) ->
     is_nan v = true \/ ((-8 <=? v) && (v <=? 8))%float = true) /\
  (((0 <? NormalizeSpec.varianceOf (values state))%float = false /\
    std = 1%float) \/
   ((0 <? NormalizeSpec.varianceOf (values state))%float = true /\
    std = sqrt (NormalizeSpec.varianceOf (values state)))) /\
  ((length (values state) <= 1)%nat ->
   NormalizeSpec.varianceOf (values state) = 0%float /\ std = 1%float).
Proof.
  intros mean std after.
  pose proof (doNormalizeInPlace_closed state) as Hclosed.
  cbv zeta in Hclosed. fold mean std after in Hclosed.
  split; [|split; [apply doNormalizeInPlace_length|]].
  { subst std. unfold NormalizeSpec.stdOf.
    destruct (0 <? NormalizeSpec.varianceOf (values state))%float eqn:Hvar.
    - apply FloatFacts.sqrt_plus_epsilon_positive, Hvar.
    - vm_compute. reflexivity. }
  split; [rewrite Hclosed; reflexivity|].
  split; [rewrite Hclosed; reflexivity|].
  split; [|split].
  - intros v Hin. rewrite Hclosed in Hin. cbn [values] in Hin.
    apply in_map_iff in Hin. destruct Hin as (x & <- & _).
    apply clamp_nan_or_in_range.
  - subst std. unfold NormalizeSpec.stdOf.
    destruct (0 <? NormalizeSpec.varianceOf (values state))%float;
      [right; split; reflexivity|left; split; reflexivity].
  - intros Hlen. subst std.
    assert (Hvar : NormalizeSpec.varianceOf (values state) = 0%float).
    { unfold NormalizeSpec.varianceOf.
      replace (1 <? length (values state))%nat with false
        by (symmetry; apply Nat.ltb_ge; lia).
      reflexivity. }
    split; [exact Hvar|].
    unfold NormalizeSpec.stdOf. rewrite Hvar. reflexivity.
Qed.

Lemma normalizeInPlace_clamps_or_yields_nan_witness :
  let state :=
    {| id := 1; name := "obj_1"; values := [3%float]; bias := 0; scale := 1;
       createdAt := 1700000000000; tag := "alpha" |} in
  NormalizeSpec.varianceOf (values state) = 0%float /\
  NormalizeSpec.stdOf (values state) = 1%float.
Proof.
  intros state.
  apply (proj2 (proj2 (proj2 (proj2 (proj2 (proj2
           (normalizeInPlace_clamps_or_yields_nan state))))))).
  simpl. lia.
Defined.

(** C5, as stated, fails in two places.  On the finite values 1e308 and
    1e308 the sum overflows, the mean is infinite, and both elements end
    as NaN, which is not in [-8, 8].  And values that are all equal need
    not have a computed variance of 0: for 0.1, 0.1 and 0.1 the sum is
    0.30000000000000004, the mean 0.10000000000000002, and the variance is
    above 0, so the standard deviation is its square root and not 1, and
    the new scale is not the one a divisor of 1 + 1e-6 gives. *)
Lemma normalizeInPlace_can_yield_nan :
  ~ (forall (state : ThinState) (v : float),
       In v (values (doNormalizeInPlace state)) ->
       ((-8 <=? v) && (v <=? 8))%float = true) /\
  (let state :=
     {| id := 1; name := "obj_1"; values := [0.1; 0.1; 0.1]%float;
        bias := 0; scale := 1; createdAt := 1700000000000;
        tag := "alpha" |} in
   (0 <? NormalizeSpec.varianceOf (values state))%float = true /\
   NormalizeSpec.stdOf (values state) <> 1%float /\
   scale (doNormalizeInPlace state) <>
     (scale state * 0.9 + (1 / (1 + 1e-6)) * 0.1)%float).
Proof.
  split.
  - intros H.
    specialize (H {| id := 1; name := "obj_1";
                     values := [1e308; 1e308]%float;
                     bias := 0; scale := 1; createdAt := 1700000000000;
                     tag := "alpha" |} nan).
    assert (Hin : In nan
              (values (doNormalizeInPlace
                 {| id := 1; name := "obj_1";
                    values := [1e308; 1e308]%float;
                    bias := 0; scale := 1; createdAt := 1700000000000;
                    tag := "alpha" |}))).
    { vm_compute. left. reflexivity. }
    specialize (H Hin). vm_compute in H. discriminate H.
  - intros state. split; [vm_compute; reflexivity|].
    split; intros H; float_discriminate H.
Qed.

(** * Further properties of the sources *)

(** ** The shared-prototype factory *)

Ltac prototype_fields :=
  cbn [HeavyFactoryPrototype.id HeavyFactoryPrototype.name
       HeavyFactoryPrototype.values HeavyFactoryPrototype.bias
       HeavyFactoryPrototype.scale HeavyFactoryPrototype.createdAt
       HeavyFactoryPrototype.tag
       HeavyLogic.id HeavyLogic.name HeavyLogic.values HeavyLogic.bias
       HeavyLogic.scale HeavyLogic.createdAt HeavyLogic.tag
       viewPrototype fst snd].

Section Prototype.
Context {rt : Runtime}.
Import HeavyFactoryPrototype.

Lemma prototype_invoke (c : Call) (this : HeavyFactoryPrototype.State) :
  fst (invoke c this) = fst (invoke c (viewPrototype this)) /\
  viewPrototype (snd (invoke c this)) = snd (invoke c (viewPrototype this)).
Proof.
  destruct this as [i nm vs b sc ca tg].
  destruct c; unfold invoke, call_checksum, call_normalizeInPlace,
    call_rollingAverage, call_formatSummary, call_scramble, call_simulate,
    prototype_like, thin_like;
  unfold HeavyFactoryPrototype.checksum,
    HeavyFactoryPrototype.normalizeInPlace,
    HeavyFactoryPrototype.rollingAverage,
    HeavyFactoryPrototype.formatSummary, HeavyFactoryPrototype.scramble,
    HeavyFactoryPrototype.simulate, doChecksum, doNormalizeInPlace,
    doRollingAverage, doFormatSummary, doScramble, doSimulate,
    effectiveWindow;
  prototype_fields;
  try (destruct (length vs =? 0)%nat); loops; prototype_fields;
  split; reflexivity.
Qed.

(** X1: The shared-prototype factory runs the same kernel as the thin-wrapper
    factory: built from the same arguments at the same clock reading, the
    two return the same results call by call and end in the same state. *)
Theorem prototype_strategy_agrees (id : Z) (name : string)
    (values : list float) (bias scale : float) (tag : string) (now : Z)
    (calls : list Call) :
  fst (run calls (createHeavyThingPrototype id name values bias scale tag now))
    = fst (run calls
             (createHeavyThingThin id name values bias scale tag now)) /\
  viewPrototype
    (snd (run calls
            (createHeavyThingPrototype id name values bias scale tag now)))
    = snd (run calls (createHeavyThingThin id name values bias scale tag now)).
Proof.
  change (createHeavyThingThin id name values bias scale tag now)
    with (viewPrototype
            (createHeavyThingPrototype id name values bias scale tag now)).
  generalize (createHeavyThingPrototype id name values bias scale tag now).
  induction calls as [|c rest IH]; intros this; [split; reflexivity|].
  simpl. destruct (prototype_invoke c this) as [Hr Hs].
  destruct (invoke c this) as [r t'],
    (invoke c (viewPrototype this)) as [r2 t2].
  simpl in Hr, Hs. subst r2 t2.
  destruct (IH t') as [Hrs Hss].
  destruct (run rest t') as [rs t''],
    (run rest (viewPrototype t')) as [rs2 t2].
  simpl in *. subst. split; reflexivity.
Qed.

End Prototype.

(** ** What the methods leave alone *)

Lemma invoke_keeps_identity {rt : Runtime} (c : Call) (state : ThinState) :
  let after := snd (invoke c state) in
  id after = id state /\ name after = name state /\
  createdAt after = createdAt state /\ tag after = tag state.
Proof.
  destruct c; cbv zeta.
  - repeat split; reflexivity.
  - repeat split; reflexivity.
  - repeat split; reflexivity.
  - repeat split; reflexivity.
  - unfold invoke, call_scramble, thin_like.
    pose proof (doScramble_closed state seed) as H. cbv zeta in H.
    rewrite H. repeat split; reflexivity.
  - unfold invoke, call_simulate, thin_like, doSimulate.
    destruct (length (values state) =? 0)%nat; [repeat split; reflexivity|].
    loops. repeat split; reflexivity.
Qed.

(** X2: No sequence of calls changes the id, the name, the creation stamp or
    the tag of a state record: the methods write values, bias and scale
    only. *)
Theorem calls_keep_id_name_stamp_and_tag {rt : Runtime} (calls : list Call)
    (state : ThinState) :
  let after := snd (run calls state) in
  id after = id state /\ name after = name state /\
  createdAt after = createdAt state /\ tag after = tag state.
Proof.
  revert state. induction calls as [|c rest IH]; intros state;
    [repeat split; reflexivity|].
  cbv zeta. simpl run.
  pose proof (invoke_keeps_identity c state) as Hc. cbv zeta in Hc.
  destruct (invoke c state) as [r t']. cbn [snd] in Hc.
  specialize (IH t'). cbv zeta in IH.
  destruct (run rest t') as [rs t'']. cbn [snd] in *.
  destruct Hc as (H1 & H2 & H3 & H4).
  rewrite <- H1, <- H2, <- H3, <- H4. exact IH.
Qed.

(** ** What the checksum reads *)

Lemma toInt32_wraps (z k : Z) : toInt32 (z + k * 4294967296) = toInt32 z.
Proof. unfold toInt32, toUint32. rewrite Z.mod_add by lia. reflexivity. Qed.

(** The checksum is a function of the values, bias, scale and tag, of the
    length of the name and of the id and the stamp truncated to 32 bits. *)
Lemma doChecksum_inputs (s1 s2 : ThinState) :
  values s1 = values s2 -> bias s1 = bias s2 -> scale s1 = scale s2 ->
  tag s1 = tag s2 -> String.length (name s1) = String.length (name s2) ->
  bor0 (id s1) = bor0 (id s2) -> bor0 (createdAt s1) = bor0 (createdAt s2) ->
  doChecksum s1 = doChecksum s2.
Proof.
  destruct s1 as [i1 n1 v1 b1 c1 t1 g1], s2 as [i2 n2 v2 b2 c2 t2 g2].
  unfold doChecksum.
  cbv beta iota delta [HeavyLogic.id HeavyLogic.name HeavyLogic.values
    HeavyLogic.bias HeavyLogic.scale HeavyLogic.createdAt HeavyLogic.tag].
  intros -> -> -> -> -> -> ->. reflexivity.
Qed.

(** X3: The checksum reads the name through its length only, and the id and
    the creation stamp modulo 2^32: renaming an instance to a name of the
    same length keeps its checksum, and so does moving the id or the stamp
    by a multiple of 2^32. *)
Theorem checksum_reads_name_length_and_wrapped_id_and_stamp {rt : Runtime}
    (state : ThinState) (newName : string) (k j : Z) :
  String.length newName = String.length (name state) ->
  doChecksum (set_name state newName) = doChecksum state /\
  doChecksum
    {| id := id state + k * 4294967296; name := name state;
       values := values state; bias := bias state; scale := scale state;
       createdAt := createdAt state + j * 4294967296; tag := tag state |} =
  doChecksum state.
Proof.
  intros Hlen. split.
  - apply doChecksum_inputs; try reflexivity. exact Hlen.
  - apply doChecksum_inputs; try reflexivity; apply toInt32_wraps.
Qed.

Lemma checksum_reads_name_length_and_wrapped_id_and_stamp_witness :
  let rt := {| toFixed := fun _ _ => EmptyString;
               toNumber := fun _ => 0%float |} in
  let state :=
    {| id := 5; name := "obj_5"; values := [0.5; -0.25]%float; bias := 0.04;
       scale := 1.04; createdAt := 1700000000000; tag := "gamma" |} in
  doChecksum (set_name state "other") = doChecksum state.
Proof.
  intros rt state.
  exact (proj1 (@checksum_reads_name_length_and_wrapped_id_and_stamp rt state
                  "other"%string 0 0 eq_refl)).
Defined.

(** ** simulate as an iterated synchronous step *)

Module SimulateSpec.

(** One relaxation step: every element moves a quarter of the way to the
    mean of itself and its two neighbours, all read from the same
    sequence, and is then scaled and shifted. *)
Definition relax (scale bias : float) (vs : list float) : list float :=
  map (fun i =>
         let left := if (0 <? i)%nat then get vs (i - 1) else get vs i in
         let center := get vs i in
         let right :=
           if (i + 1 <? length vs)%nat then get vs (i + 1) else get vs i in
         let target := ((left + center + right) / 3)%float in
         let next := (center + (target - center) * 0.25)%float in
         (next * scale + bias * 0.0001)%float) (seq 0 (length vs)).

(** The sum of the squared differences of neighbouring elements. *)
Definition energyOf (vs : list float) : float :=
  for_loop 1 (length vs - 1) (fun i energy =>
    let d := (get vs i - get vs (i - 1))%float in
    (energy + d * d)%float) 0%float.

End SimulateSpec.

Lemma imap_index_only {A B : Type} (g : nat -> B) (l : list A) :
  imap (fun i _ => g i) l = map g (seq 0 (length l)).
Proof.
  revert g. induction l as [|a l IH]; intros g; [reflexivity|].
  simpl. f_equal. rewrite <- seq_shift, map_map. apply (IH (fun i => g (S i))).
Qed.

(** A loop that assigns every slot from its index alone. *)
Lemma fill_loop (g : nat -> float) (l : list float) :
  for_loop 0 (length l) (fun i vals => <[i := g i]> vals) l =
  map g (seq 0 (length l)).
Proof.
  rewrite (update_loop (fun i _ => g i)). apply imap_index_only.
Qed.

Lemma fill_loop_of_length (g : nat -> float) (l : list float) (n : nat) :
  length l = n ->
  for_loop 0 n (fun i vals => <[i := g i]> vals) l = map g (seq 0 n).
Proof. intros <-. apply fill_loop. Qed.

Lemma map_get_seq (l : list float) : map (get l) (seq 0 (length l)) = l.
Proof.
  apply list_eq. intros i. rewrite list_lookup_fmap.
  destruct (decide (i < length l)%nat) as [Hi|Hi].
  - rewrite lookup_seq_lt by exact Hi. simpl. unfold get.
    destruct (lookup_lt_is_Some_2 l i Hi) as [v Hv]. rewrite Hv. reflexivity.
  - rewrite lookup_seq_ge by lia. rewrite lookup_ge_None_2 by lia.
    reflexivity.
Qed.

Lemma relax_length (scale bias : float) (vs : list float) :
  length (SimulateSpec.relax scale bias vs) = length vs.
Proof. unfold SimulateSpec.relax. rewrite length_map, length_seq. reflexivity. Qed.

Lemma iter_relax_length (scale bias : float) (k : nat) (vs : list float) :
  length (Nat.iter k (SimulateSpec.relax scale bias) vs) = length vs.
Proof.
  induction k as [|k IH]; [reflexivity|].
  rewrite Nat.iter_succ, relax_length. exact IH.
Qed.

(** [doSimulate] in closed form. *)
Lemma doSimulate_closed (state : ThinState) (iterations : float) :
  let steps := Z.to_nat (Z.max 1 (toInt32F iterations)) in
  let final :=
    Nat.iter steps (SimulateSpec.relax (scale state) (bias state))
      (values state) in
  doSimulate state iterations =
  (SimulateSpec.energyOf final,
   {| id := id state; name := name state; values := final;
      bias := bias state; scale := scale state;
      createdAt := createdAt state; tag := tag state |}).
Proof.
  intros steps final. unfold doSimulate. fold steps.
  destruct (length (values state) =? 0)%nat eqn:Hn.
  - apply Nat.eqb_eq in Hn.
    assert (Hfinal : final = [])
      by (apply nil_length_inv; unfold final;
          rewrite iter_relax_length; exact Hn).
    apply nil_length_inv in Hn.
    rewrite Hfinal. destruct state as [i nm vs b sc ca tg].
    cbn [values] in Hn. subst vs. reflexivity.
  - set (n := length (values state)).
    match goal with
    | |- context [for_loop 0 steps ?body ?init] =>
        assert (H : fst (for_loop 0 steps body init) = final /\
                    length (snd (for_loop 0 steps body init)) = n)
    end.
    { subst final. clearbody steps.
      induction steps as [|k IH].
      - split; [reflexivity|]. apply length_replicate.
      - rewrite for_loop_snoc.
        destruct (for_loop 0 k _ _) as [vals temp].
        destruct IH as [Hvals Htemp]. cbn [fst snd] in *.
        assert (Hlen : length vals = n)
          by (rewrite Hvals; apply iter_relax_length).
        rewrite (fill_loop_of_length _ temp n Htemp).
        set (new := map _ (seq 0 n)).
        assert (Hnew : length new = n)
          by (unfold new; rewrite length_map, length_seq; reflexivity).
        rewrite (fill_loop_of_length (fun i => get new i) vals n Hlen).
        assert (Hcopy : map (fun i => get new i) (seq 0 n) = new)
          by (rewrite <- Hnew at 1; apply map_get_seq).
        rewrite Hcopy. split; [|exact Hnew].
        rewrite Nat.iter_succ, <- Hvals. unfold new, SimulateSpec.relax.
        rewrite Hlen. reflexivity. }
    destruct (for_loop 0 steps _ _) as [vals temp].
    cbn [fst snd] in H. destruct H as [-> _].
    unfold SimulateSpec.energyOf.
    replace (length final) with n
      by (unfold final; rewrite iter_relax_length; reflexivity).
    reflexivity.
Qed.

(** X4: [simulate] runs [max(1, iterations | 0)] relaxation steps, each one
    computed from the sequence the step before left (no element sees a
    neighbour already updated in the same step); it returns the energy
    of the final sequence and writes nothing but values.  Two calls in a
    row leave what a single run of the summed step counts leaves, and on a
    single element the energy is 0. *)
Theorem simulate_is_iterated_relaxation (state : ThinState)
    (a b : float) :
  let stepsOf := fun k : float => Z.to_nat (Z.max 1 (toInt32F k)) in
  let relaxed := fun k : nat =>
    Nat.iter k (SimulateSpec.relax (scale state) (bias state))
      (values state) in
  let withValues := fun vs : list float =>
    {| id := id state; name := name state; values := vs;
       bias := bias state; scale := scale state;
       createdAt := createdAt state; tag := tag state |} in
  doSimulate state a =
    (SimulateSpec.energyOf (relaxed (stepsOf a)),
     withValues (relaxed (stepsOf a))) /\
  (1 <= stepsOf a)%nat /\
  snd (doSimulate (snd (doSimulate state a)) b) =
    withValues (relaxed (stepsOf b + stepsOf a)%nat) /\
  (length (values state) = 1%nat -> fst (doSimulate state a) = 0%float).
Proof.
  intros stepsOf relaxed withValues.
  pose proof (doSimulate_closed state a) as Ha. cbv zeta in Ha.
  fold (stepsOf a) in Ha. fold (relaxed (stepsOf a)) in Ha.
  split; [exact Ha|]. split; [unfold stepsOf; lia|]. split.
  - rewrite Ha. cbn [snd].
    pose proof (doSimulate_closed
                  {| id := id state; name := name state;
                     values := relaxed (stepsOf a); bias := bias state;
                     scale := scale state; createdAt := createdAt state;
                     tag := tag state |} b) as Hb.
    cbv zeta in Hb. cbn [id name values bias scale createdAt tag] in Hb.
    rewrite Hb. cbn [snd]. unfold withValues, relaxed.
    rewrite Nat.iter_add. reflexivity.
  - intros Hone. rewrite Ha. cbn [fst]. unfold SimulateSpec.energyOf, relaxed.
    rewrite iter_relax_length, Hone. reflexivity.
Qed.

Lemma simulate_is_iterated_relaxation_witness :
  fst (doSimulate
         {| id := 1; name := "obj_1"; values := [0.75%float]; bias := 0.01;
            scale := 1.01; createdAt := 1700000000000; tag := "alpha" |}
         3) = 0%float.
Proof.
  apply (proj2 (proj2 (proj2
    (simulate_is_iterated_relaxation
       {| id := 1; name := "obj_1"; values := [0.75%float]; bias := 0.01;
          scale := 1.01; createdAt := 1700000000000; tag := "alpha" |}
       3 3)))).
  reflexivity.
Defined.

(** ** rollingAverage before the window is full *)




(** ** The population: failure, retention, identifiers *)

(** X6: [makeInstances] throws exactly when the count is not a valid array
    length, that is, below 0 or above 2^32 - 1. *)
Theorem makeInstances_throws_exactly_on_invalid_length (clock : nat -> Z)
    (approach : string) (count : Z) (retained : list Instance) :
  makeInstances clock {| MakeInstances.approach := approach;
                         MakeInstances.count := count |} retained = None
  <-> ~ (0 <= count < 4294967296).
Proof.
  split.
  - intros Hnone Hvalid.
    rewrite (PopulationFacts.makeInstances_population clock approach count
               retained Hvalid) in Hnone.
    discriminate Hnone.
  - intros Hinvalid. unfold makeInstances.
    cbn [MakeInstances.approach MakeInstances.count].
    destruct ((0 <=? count) && (count <? 4294967296)) eqn:E; [|reflexivity].
    apply andb_true_iff in E. destruct E as [E1 E2].
    apply Z.leb_le in E1. apply Z.ltb_lt in E2. lia.
Qed.

Lemma instanceChecksum_view (inst : Instance) :
  instanceChecksum inst = doChecksum (viewInstance inst).
Proof.
  destruct inst as [o|o|o|o]; cbn [instanceChecksum viewInstance].
  - destruct o as [i nm vs b sc [ca tg]].
    unfold HeavyClass.checksum, doChecksum; fields; loops; reflexivity.
  - destruct o as [i nm vs b sc [ca tg]].
    unfold HeavyFactory.checksum, doChecksum; fields; loops; reflexivity.
  - reflexivity.
  - destruct o as [i nm vs b sc ca tg].
    unfold HeavyFactoryPrototype.checksum, doChecksum; prototype_fields;
      loops; reflexivity.
Qed.

(** X7: On a valid count, [makeInstances] returns an array without empty
    slots, appends exactly the returned instances, in order, to the
    retained ones (none of which is dropped), and gives the instances the
    ids 1, 2, ..., count, which are pairwise distinct. *)
Theorem makeInstances_retains_what_it_returns (clock : nat -> Z)
    (approach : string) (count : Z) (retained : list Instance) :
  0 <= count < 4294967296 ->
  exists instances : list Instance,
    makeInstances clock {| MakeInstances.approach := approach;
                           MakeInstances.count := count |} retained =
      Some (map Some instances, retained ++ instances) /\
    length instances = Z.to_nat count /\
    map (fun inst => id (viewInstance inst)) instances =
      map (fun i => Z.of_nat i + 1) (seq 0 (Z.to_nat count)) /\
    NoDup (map (fun inst => id (viewInstance inst)) instances).
Proof.
  intros Hcount.
  exists (map (fun i => PopulationFacts.construct approach
                          (PopulationSpec.seedRecord clock i))
            (seq 0 (Z.to_nat count))).
  rewrite (PopulationFacts.makeInstances_population clock approach count
             retained Hcount).
  assert (Hids :
    map (fun inst => id (viewInstance inst))
      (map (fun i => PopulationFacts.construct approach
                       (PopulationSpec.seedRecord clock i))
         (seq 0 (Z.to_nat count))) =
    map (fun i => Z.of_nat i + 1) (seq 0 (Z.to_nat count))).
  { rewrite map_map. apply map_ext. intros i.
    rewrite PopulationFacts.view_construct. reflexivity. }
  split; [rewrite map_map; reflexivity|].
  split; [rewrite length_map, length_seq; reflexivity|].
  split; [exact Hids|].
  rewrite Hids.
  assert (Hinj : Inj eq eq (fun i : nat => Z.of_nat i + 1))
    by (intros i j Hij; lia).
  apply (NoDup_fmap_2 (fun i : nat => Z.of_nat i + 1)). apply NoDup_seq.
Qed.

Lemma makeInstances_retains_what_it_returns_witness :
  exists instances : list Instance,
    makeInstances (fun i => 1700000000000 + Z.of_nat i)
      {| MakeInstances.approach := "factory"; MakeInstances.count := 4 |} []
      = Some (map Some instances, [] ++ instances) /\
    length instances = 4%nat.
Proof.
  destruct (makeInstances_retains_what_it_returns
              (fun i => 1700000000000 + Z.of_nat i) "factory"%string 4 []
              ltac:(lia)) as (instances & Hmake & Hlen & _).
  exists instances. split; [exact Hmake|exact Hlen].
Defined.

(** X8: The checksum of the instance of index [i] does not depend on the
    approach: under the same clock, the populations built by any two
    approach values have, slot by slot, equal checksums. *)
Theorem population_checksums_ignore_the_approach (clock : nat -> Z)
    (approach1 approach2 : string) (count : Z)
    (retained1 retained2 : list Instance) :
  0 <= count < 4294967296 ->
  exists out1 out2 kept1 kept2,
    makeInstances clock {| MakeInstances.approach := approach1;
                           MakeInstances.count := count |} retained1 =
      Some (out1, kept1) /\
    makeInstances clock {| MakeInstances.approach := approach2;
                           MakeInstances.count := count |} retained2 =
      Some (out2, kept2) /\
    map (option_map instanceChecksum) out1 =
    map (option_map instanceChecksum) out2.
Proof.
  intros Hcount. eexists _, _, _, _.
  split; [apply (PopulationFacts.makeInstances_population clock approach1
                   count retained1 Hcount)|].
  split; [apply (PopulationFacts.makeInstances_population clock approach2
                   count retained2 Hcount)|].
  rewrite !map_map. apply map_ext. intros i. cbn [option_map].
  rewrite !instanceChecksum_view, !PopulationFacts.view_construct.
  reflexivity.
Qed.

Lemma population_checksums_ignore_the_approach_witness :
  exists out1 out2 kept1 kept2,
    makeInstances (fun _ => 1700000000000)
      {| MakeInstances.approach := "class"; MakeInstances.count := 3 |} [] =
      Some (out1, kept1) /\
    makeInstances (fun _ => 1700000000000)
      {| MakeInstances.approach := "factory-thin";
         MakeInstances.count := 3 |} [] = Some (out2, kept2) /\
    map (option_map instanceChecksum) out1 =
    map (option_map instanceChecksum) out2.
Proof.
  exact (population_checksums_ignore_the_approach (fun _ => 1700000000000)
           "class"%string "factory-thin"%string 3 [] [] ltac:(lia)).
Defined.

(** ** The command line *)

Lemma list_pair_ind {A : Type} (P : list A -> Prop) :
  P [] -> (forall a, P [a]) ->
  (forall a b l, P l -> P (b :: l) -> P (a :: b :: l)) ->
  forall l, P l.
Proof.
  intros Hnil Hone Hstep l.
  assert (H : P l /\ forall a, P (a :: l)).
  { induction l as [|b l [IH1 IH2]]; [split; [exact Hnil|exact Hone]|].
    split; [apply IH2|]. intros a. apply Hstep; [exact IH1|apply IH2]. }
  exact (proj1 H).
Qed.

Lemma positive_number_has_nonnegative_floor (n : float) :
  (0 <? n)%float = true -> 0 <= Main.Math_floor n.
Proof.
  intros Hpos. rewrite ltb_spec in Hpos.
  replace (Prim2SF 0) with (S754_zero false) in Hpos
    by (vm_compute; reflexivity).
  unfold Main.Math_floor.
  destruct (Prim2SF n) as [s|s| |s m e]; try lia.
  destruct s; [discriminate Hpos|].
  apply Z.shiftl_nonneg. lia.
Qed.

(** The approach values the parser lets through. *)
Definition acceptedApproaches : list string :=
  ["class"; "factory"; "factory-thin"; "factory-prototype"]%string.

Lemma parseArgsFrom_sound {rt : Runtime} (argv : list string) :
  forall (approach : option string) (count : option Z),
    (forall a, approach = Some a -> In a acceptedApproaches) ->
    (forall c, count = Some c -> 0 <= c) ->
    (forall a, fst (Main.parseArgsFrom argv approach count) = Some a ->
               In a acceptedApproaches) /\
    (forall c, snd (Main.parseArgsFrom argv approach count) = Some c ->
               0 <= c).
Proof.
  induction argv as [|a|a next rest IHrest IHnext] using list_pair_ind;
    intros approach count Ha Hc.
  - split; assumption.
  - split; assumption.
  - cbn [Main.parseArgsFrom].
    destruct (String.eqb a "--approach").
    + apply IHrest; [|exact Hc].
      destruct (String.eqb next "class") eqn:E1;
        [apply String.eqb_eq in E1; subst next; cbn [orb];
         intros ? [= <-]; simpl; tauto|].
      destruct (String.eqb next "factory") eqn:E2;
        [apply String.eqb_eq in E2; subst next; cbn [orb];
         intros ? [= <-]; simpl; tauto|].
      destruct (String.eqb next "factory-thin") eqn:E3;
        [apply String.eqb_eq in E3; subst next; cbn [orb];
         intros ? [= <-]; simpl; tauto|].
      destruct (String.eqb next "factory-prototype") eqn:E4;
        [apply String.eqb_eq in E4; subst next; cbn [orb];
         intros ? [= <-]; simpl; tauto|].
      exact Ha.
    + destruct (String.eqb a "--count").
      * apply IHrest; [exact Ha|].
        destruct (Main.Number_isFinite (toNumber next)
                  && (0 <? toNumber next)%float) eqn:E; [|exact Hc].
        apply andb_true_iff in E. destruct E as [_ E].
        intros c [= <-]. apply positive_number_has_nonnegative_floor, E.
      * apply IHnext; assumption.
Qed.

(** X9: Whatever the arguments, when [parseArgs] returns options their
    approach is one of the four accepted values and their count is an
    integer of at least 1. *)
Theorem parseArgs_returns_accepted_approach_and_positive_count
    {rt : Runtime} (argv : list string) (options : Main.CliOptions) :
  Main.parseArgs argv = Some options ->
  In (Main.approach options) acceptedApproaches /\ 1 <= Main.count options.
Proof.
  unfold Main.parseArgs.
  destruct (parseArgsFrom_sound argv None None
              ltac:(discriminate) ltac:(discriminate)) as [Ha Hc].
  destruct (Main.parseArgsFrom argv None None) as [[a|] [c|]];
    try discriminate.
  cbn [fst snd] in Ha, Hc.
  destruct (String.eqb a "" || (c =? 0)) eqn:E; [discriminate|].
  intros [= <-]. cbn [Main.approach Main.count].
  apply orb_false_iff in E. destruct E as [_ E]. apply Z.eqb_neq in E.
  split; [apply Ha; reflexivity|].
  specialize (Hc c eq_refl). lia.
Qed.

Lemma parseArgs_returns_accepted_approach_and_positive_count_witness :
  let rt := {| toFixed := fun _ _ => EmptyString;
               toNumber := fun _ => 2.5%float |} in
  In "factory"%string acceptedApproaches /\ 1 <= 2.
Proof.
  intros rt.
  exact (@parseArgs_returns_accepted_approach_and_positive_count rt
           ["--count"; "2.5"; "--approach"; "factory"]%string
           {| Main.approach := "factory"; Main.count := 2 |} eq_refl).
Defined.

Lemma parseArgsFrom_needs_flags {rt : Runtime} (argv : list string) :
  forall (approach : option string) (count : option Z),
    (~ In "--approach"%string argv ->
     fst (Main.parseArgsFrom argv approach count) = approach) /\
    (~ In "--count"%string argv ->
     snd (Main.parseArgsFrom argv approach count) = count).
Proof.
  induction argv as [|a|a next rest IHrest IHnext] using list_pair_ind;
    intros approach count.
  - split; reflexivity.
  - split; reflexivity.
  - cbn [Main.parseArgsFrom].
    destruct (String.eqb a "--approach") eqn:E1.
    + apply String.eqb_eq in E1. subst a. split.
      * intros Hnot. exfalso. apply Hnot. left. reflexivity.
      * intros Hnot. apply IHrest. intros Hin. apply Hnot.
        right. right. exact Hin.
    + destruct (String.eqb a "--count") eqn:E2.
      * apply String.eqb_eq in E2. subst a. split.
        -- intros Hnot. apply IHrest. intros Hin. apply Hnot.
           right. right. exact Hin.
        -- intros Hnot. exfalso. apply Hnot. left. reflexivity.
      * split; intros Hnot; apply IHnext; intros Hin; apply Hnot;
          right; exact Hin.
Qed.

(** X10: Without an argument equal to "--approach", or without one equal to
    "--count", [parseArgs] returns null. *)
Theorem parseArgs_needs_both_flags {rt : Runtime} (argv : list string) :
  ~ In "--approach"%string argv \/ ~ In "--count"%string argv ->
  Main.parseArgs argv = None.
Proof.
  intros Hmissing. unfold Main.parseArgs.
  destruct (parseArgsFrom_needs_flags argv None None) as [Ha Hc].
  destruct (Main.parseArgsFrom argv None None) as [a c]. cbn [fst snd] in *.
  destruct Hmissing as [H|H].
  - rewrite (Ha H). reflexivity.
  - rewrite (Hc H). destruct a; reflexivity.
Qed.

Lemma parseArgs_needs_both_flags_witness :
  let rt := {| toFixed := fun _ _ => EmptyString;
               toNumber := fun _ => 10%float |} in
  Main.parseArgs ["--approach"; "class"; "-count"; "10"]%string = None.
Proof.
  intros rt.
  apply (@parseArgs_needs_both_flags rt). right.
  intros [H|[H|[H|[H|[]]]]]; discriminate H.
Defined.

(** ** What the stream receives *)

(** X11: On every path the stream holds exactly the string and byte chunks of
    the emitted messages, each once and in the order of emission, also
    when the capture request then fails; it holds nothing when the enable
    request fails.  A message's own [chunk] is read before
    [params.chunk], and a chunk that is neither a string nor bytes is
    dropped even when [params.chunk] could have been written. *)
Theorem stream_holds_the_forwardable_chunks_in_order
    (p : Snapshot.Profiler) :
  Snapshot.written (fst (Snapshot.takeHeapSnapshot p Snapshot.initial)) =
    match Snapshot.enableError p with
    | Some _ => []
    | None => flat_map SnapshotFacts.kept (Snapshot.emitted p)
    end /\
  (forall m : Snapshot.Message,
     SnapshotFacts.kept m =
     match Snapshot.chunk m with
     | Some (Snapshot.ChunkString s) => [Snapshot.ChunkString s]
     | Some (Snapshot.ChunkBytes b) => [Snapshot.ChunkBytes b]
     | Some Snapshot.ChunkOther => []
     | None =>
         match Snapshot.params_chunk m with
         | Some (Snapshot.ChunkString s) => [Snapshot.ChunkString s]
         | Some (Snapshot.ChunkBytes b) => [Snapshot.ChunkBytes b]
         | _ => []
         end
     end).
Proof.
  split.
  - destruct p as [[e1|] ms [e2|] [e3|]];
      lazy -[fold_left flat_map map app Snapshot.onChunk SnapshotFacts.kept];
      rewrite ?SnapshotFacts.emit_all;
      lazy -[flat_map map app SnapshotFacts.kept]; reflexivity.
  - intros m. unfold SnapshotFacts.kept.
    destruct (Snapshot.chunk m) as [[s|b|]|]; reflexivity.
Qed.

(** ** How far scramble moves bias and scale *)

Lemma band_255_range (x : Z) : 0 <= band x 255 <= 255.
Proof.
  unfold band. change (toInt32 255) with (Z.ones 8).
  rewrite Z.land_ones by lia.
  generalize (toInt32 x). intros y.
  pose proof (Z.mod_pos_bound y (2 ^ 8) eq_refl) as Hm.
  change (2 ^ 8) with 256 in *.
  unfold toInt32, toUint32. rewrite (Z.mod_small (y mod 256)) by lia.
  replace (y mod 256 <? 2147483648) with true
    by (symmetry; apply Z.ltb_lt; lia).
  lia.
Qed.

(** X12: Scramble adds to the bias a whole number of millionths between -128
    and 127, and multiplies the scale by one plus such a number of
    millionths. *)
Theorem scramble_moves_bias_and_scale_by_bounded_steps (state : ThinState)
    (seed : float) :
  exists kb ks : Z,
    -128 <= kb <= 127 /\ -128 <= ks <= 127 /\
    bias (doScramble state seed) = (bias state + ofZ kb * 1e-6)%float /\
    scale (doScramble state seed) =
      (scale state * (1 + ofZ ks * 1e-6))%float.
Proof.
  pose proof (doScramble_closed state seed) as H. cbv zeta in H.
  set (xn := Nat.iter (length (values state)) PopulationSpec.xorshift32
               (ScrambleSpec.scrambleStart seed)) in H.
  exists (band xn 255 - 128), (band (ushr xn 8) 255 - 128).
  pose proof (band_255_range xn). pose proof (band_255_range (ushr xn 8)).
  split; [lia|]. split; [lia|]. rewrite H. split; reflexivity.
Qed.

(** ** The divisor of normalizeInPlace *)

(** X14: [normalizeInPlace] never divides by zero: whatever the values
    (finite or not), the divisor [std + 1e-6] it uses for every element
    and for the new scale compares above 0. *)
Theorem normalizeInPlace_divisor_is_positive (state : ThinState) :
  let mean := NormalizeSpec.meanOf (values state) in
  let std := NormalizeSpec.stdOf (values state) in
  (0 <? std + 1e-6)%float = true /\
  values (doNormalizeInPlace state) =
    map (fun v => Math_max (-8) (Math_min 8 ((v - mean) / (std + 1e-6)))%float)
      (values state) /\
  scale (doNormalizeInPlace state) =
    (scale state * 0.9 + (1 / (std + 1e-6)) * 0.1)%float.
Proof.
  intros mean std.
  pose proof (doNormalizeInPlace_closed state) as Hclosed.
  cbv zeta in Hclosed. fold mean std in Hclosed.
  split; [|rewrite Hclosed; split; reflexivity].
  subst std. unfold NormalizeSpec.stdOf.
  destruct (0 <? NormalizeSpec.varianceOf (values state))%float eqn:Hvar.
  - apply FloatFacts.sqrt_plus_epsilon_positive, Hvar.
  - vm_compute. reflexivity.
Qed.

(** ** The range of the generated values *)

(** Upper bounds through binary64 rounding: a number at most [N * 2^B]
    rounds to a number at most [N * 2^B], because the mantissa is only
    rounded up when something was shifted out below it. *)
Module FloatBounds.
Import FloatFacts.

(** The number [m * 2^e] kept in a shift record is at most [N * 2^B], and
    when it equals the bound nothing has been shifted out. *)
Definition below (N B : Z) (mrs : shr_record) (e : Z) : Prop :=
  0 <= shr_m mrs /\ e <= B /\
  (shr_m mrs < N * 2 ^ (B - e) \/
   (shr_m mrs = N * 2 ^ (B - e) /\ shr_r mrs = false /\ shr_s mrs = false)).

(** A rounded result that is a zero or a finite number of magnitude at
    most [N * 2^B]. *)
Definition atmost (N B : Z) (r : spec_float) : Prop :=
  match r with
  | S754_zero _ => True
  | S754_finite _ m e => e <= B /\ Z.pos m <= N * 2 ^ (B - e)
  | _ => False
  end.

Lemma pow2_step (k : Z) : 0 <= k -> 2 ^ (k + 1) = 2 * 2 ^ k.
Proof. intros Hk. rewrite Z.pow_add_r by lia. change (2 ^ 1) with 2. lia. Qed.

Lemma shr_1_below (N B : Z) (mrs : shr_record) (e : Z) :
  e + 1 <= B -> below N B mrs e -> below N B (shr_1 mrs) (e + 1).
Proof.
  intros He (Hm & _ & H).
  assert (Hpow : 2 ^ (B - e) = 2 * 2 ^ (B - (e + 1))).
  { replace (B - e) with (B - (e + 1) + 1) by lia. apply pow2_step. lia. }
  rewrite Hpow in H. set (X := 2 ^ (B - (e + 1))) in *.
  split; [rewrite shr_1_halves by exact Hm; apply Z.div_pos; lia|].
  split; [lia|].
  destruct H as [H|(H & Hr & Hs)].
  - left. rewrite shr_1_halves by exact Hm.
    apply Z.div_lt_upper_bound; lia.
  - right. destruct mrs as [m r s]. cbn [shr_m shr_r shr_s] in *.
    subst r s. destruct m as [|[p|p|]|p]; cbn; try lia;
      repeat split; lia.
Qed.

Lemma iter_shr_1_below (N B : Z) (p : positive) :
  forall (mrs : shr_record) (e : Z),
    e + Z.pos p <= B -> below N B mrs e ->
    below N B (SpecFloat.iter_pos shr_1 p mrs) (e + Z.pos p).
Proof.
  induction p as [p IH|p IH|]; intros mrs e He H; cbn [SpecFloat.iter_pos].
  - replace (e + Z.pos p~1) with (e + 1 + Z.pos p + Z.pos p) by lia.
    apply IH; [lia|]. apply IH; [lia|]. apply shr_1_below; [lia|exact H].
  - replace (e + Z.pos p~0) with (e + Z.pos p + Z.pos p) by lia.
    apply IH; [lia|]. apply IH; [lia|exact H].
  - apply shr_1_below; assumption.
Qed.

Lemma Zdigits2_bound (m k : Z) :
  0 <= m -> 0 <= k -> m < 2 ^ k -> Zdigits2 m <= k.
Proof.
  intros Hm Hk Hlt. destruct m as [|p|p]; cbn [Zdigits2]; try lia.
  pose proof (digits2_pos_bounds p) as [Hlow _].
  assert (Z.pos (digits2_pos p) - 1 < k); [|lia].
  apply (Z.pow_lt_mono_r_iff 2); lia.
Qed.

Lemma shr_fexp_below (N B m e : Z) (l : location) :
  1 <= N < 2 ^ 53 -> SpecFloat.emin prec emax <= B ->
  below N B (shr_record_of_loc m l) e ->
  below N B (fst (shr_fexp prec emax m e l))
    (snd (shr_fexp prec emax m e l)).
Proof.
  intros HN HB H. unfold shr_fexp, shr.
  destruct (fexp prec emax (Zdigits2 m + e) - e) as [|n|n] eqn:Hn;
    cbn [fst snd]; try exact H.
  apply iter_shr_1_below; [|exact H].
  destruct H as (Hm & He & H). rewrite shr_record_of_loc_m in Hm, H.
  assert (Hlt : m < 2 ^ (53 + (B - e))).
  { rewrite Z.pow_add_r by lia.
    assert (0 < 2 ^ (B - e)) by (apply Z.pow_pos_nonneg; lia). nia. }
  pose proof (Zdigits2_bound m (53 + (B - e)) Hm ltac:(lia) Hlt) as Hd.
  unfold fexp, SpecFloat.emin, prec, emax in *. lia.
Qed.

Lemma round_nearest_even_le (m : Z) (l : location) :
  round_nearest_even m l <= m + 1.
Proof.
  destruct l as [|[| |]]; cbn [round_nearest_even]; try lia.
  destruct (Z.even m); lia.
Qed.

Lemma loc_of_shr_record_exact (mrs : shr_record) :
  shr_r mrs = false -> shr_s mrs = false -> loc_of_shr_record mrs = loc_Exact.
Proof. destruct mrs as [m r s]. cbn. intros -> ->. reflexivity. Qed.

Lemma below_of_exact (N B m e : Z) :
  0 <= m -> e <= B -> m <= N * 2 ^ (B - e) ->
  below N B (shr_record_of_loc m loc_Exact) e.
Proof.
  intros Hm He Hle. cbn [shr_record_of_loc]. repeat split; cbn; try lia.
Qed.

Lemma binary_round_aux_atmost (N B : Z) (s : bool) (m e : Z) (l : location) :
  1 <= N < 2 ^ 53 -> SpecFloat.emin prec emax <= B <= emax - prec ->
  below N B (shr_record_of_loc m l) e ->
  atmost N B (binary_round_aux prec emax s m e l).
Proof.
  intros HN HB H. unfold binary_round_aux.
  pose proof (shr_fexp_below N B m e l HN (proj1 HB) H) as H1.
  destruct (shr_fexp prec emax m e l) as [mrs' e']. cbn [fst snd] in H1.
  set (mr := round_nearest_even (shr_m mrs') (loc_of_shr_record mrs')).
  assert (Hr : below N B (shr_record_of_loc mr loc_Exact) e').
  { destruct H1 as (Hm & He & H1).
    pose proof (round_nearest_even_ge (shr_m mrs') (loc_of_shr_record mrs'))
      as Hge.
    pose proof (round_nearest_even_le (shr_m mrs') (loc_of_shr_record mrs'))
      as Hle.
    fold mr in Hge, Hle.
    apply below_of_exact; [lia|exact He|].
    destruct H1 as [H1|(H1 & Hr & Hs)]; [lia|].
    unfold mr. rewrite (loc_of_shr_record_exact _ Hr Hs).
    cbn [round_nearest_even]. lia. }
  pose proof (shr_fexp_below N B mr e' loc_Exact HN (proj1 HB) Hr) as H2.
  destruct (shr_fexp prec emax mr e' loc_Exact) as [mrs'' e''].
  cbn [fst snd] in H2. destruct H2 as (Hm & He & H2).
  destruct (shr_m mrs'') as [|p|p]; [exact I| |lia].
  replace (e'' <=? emax - prec) with true by (symmetry; apply Z.leb_le; lia).
  cbn [atmost]. split; [exact He|lia].
Qed.

Lemma shl_align_value (m : positive) (e target : Z) :
  snd (shl_align m e target) <= e /\
  Z.pos (fst (shl_align m e target)) =
    Z.pos m * 2 ^ (e - snd (shl_align m e target)).
Proof.
  unfold shl_align.
  destruct (target - e) as [|d|d] eqn:Hd; cbn [fst snd];
    rewrite ?Z.sub_diag, ?Z.pow_0_r; try lia.
  rewrite pos_iter_xO. split; [lia|].
  replace (e - target) with (Z.pos d) by lia. reflexivity.
Qed.

Lemma binary_round_atmost (N B : Z) (s : bool) (p : positive) (e : Z) :
  1 <= N < 2 ^ 53 -> SpecFloat.emin prec emax <= B <= emax - prec ->
  e <= B -> Z.pos p <= N * 2 ^ (B - e) ->
  atmost N B (binary_round prec emax s p e).
Proof.
  intros HN HB He Hle. unfold binary_round.
  pose proof (shl_align_value p e
                (fexp prec emax (Z.pos (digits2_pos p) + e))) as [H1 H2].
  destruct (shl_align p e _) as [mz ez]. cbn [fst snd] in H1, H2.
  apply binary_round_aux_atmost; [exact HN|exact HB|].
  apply below_of_exact; [lia|lia|]. rewrite H2.
  replace (B - ez) with ((B - e) + (e - ez)) by lia.
  rewrite Z.pow_add_r by lia.
  assert (0 < 2 ^ (e - ez)) by (apply Z.pow_pos_nonneg; lia). nia.
Qed.

Lemma binary_round_nonneg (p : positive) (e : Z) :
  sign_ok (binary_round prec emax false p e).
Proof.
  unfold binary_round. destruct (shl_align p e _) as [mz ez].
  apply binary_round_aux_nonneg. lia.
Qed.

(** The constants of [generateInitialValues] as specification floats:
    4294967295, 0.5 and 2. *)
Definition sf_max32 : spec_float := S754_finite false 9007199252643840 (-21).
Definition sf_half : spec_float := S754_finite false 4503599627370496 (-53).
Definition sf_two : spec_float := S754_finite false 4503599627370496 (-51).

Lemma ofZ_atmost (u : Z) :
  0 < u < 2 ^ 32 ->
  sign_ok (Prim2SF (ofZ u)) /\ atmost u 0 (Prim2SF (ofZ u)).
Proof.
  intros Hu. destruct u as [|p|p]; try lia. unfold ofZ.
  rewrite of_uint63_spec, Uint63.of_Z_spec.
  rewrite Z.mod_small by (change Uint63.wB with (2 ^ 63); lia).
  cbn [binary_normalize]. split; [apply binary_round_nonneg|].
  apply binary_round_atmost; unfold SpecFloat.emin, prec, emax; lia.
Qed.

Lemma quotient_bound (n D X q r : Z) :
  0 <= n -> 0 < D -> n <= D * X -> n = D * q + r -> 0 <= r < D ->
  0 <= q /\ (q < X \/ (q = X /\ r = 0)).
Proof.
  intros Hn HD Hle Hq Hr. subst n.
  assert (Hq0 : 0 <= q) by nia. split; [exact Hq0|].
  destruct (Z_lt_le_dec q X) as [Hlt|Hge]; [left; exact Hlt|right].
  assert (Hr0 : r = 0) by nia. split; [nia|exact Hr0].
Qed.

Lemma SFdiv_max32_atmost (u : Z) (r : spec_float) :
  u <= 4294967295 -> sign_ok r -> atmost u 0 r ->
  sign_ok (SFdiv prec emax r sf_max32) /\
  atmost 1 0 (SFdiv prec emax r sf_max32).
Proof.
  intros Hu Hs Ha.
  destruct r as [s|[|]| |[|] m e]; cbn [sign_ok atmost] in *;
    try contradiction; try discriminate.
  - split; exact I.
  - destruct Ha as [He Hm]. rewrite Z.sub_0_l in Hm.
    assert (Hpe : 0 < 2 ^ (- e)) by (apply Z.pow_pos_nonneg; lia).
    unfold SFdiv, sf_max32, SFdiv_core_binary. cbv zeta.
    change (Zdigits2 (Z.pos 9007199252643840)) with 53. cbn [xorb].
    set (d1 := Zdigits2 (Z.pos m)).
    set (e' := Z.min (fexp prec emax (d1 + e - (53 + -21))) (e - -21)).
    set (k := e - -21 - e').
    set (m' := match k with
               | 0 => Z.pos m
               | Z.pos _ => Z.shiftl (Z.pos m) k
               | Z.neg _ => 0
               end).
    assert (Hd1 : d1 <= 32 - e).
    { apply Zdigits2_bound; [lia|lia|].
      replace (32 - e) with (32 + - e) by lia.
      rewrite Z.pow_add_r by lia.
      change (2 ^ 32) with 4294967296. nia. }
    assert (He' : e' <= -53).
    { unfold e', fexp, SpecFloat.emin, prec, emax. lia. }
    assert (Hk : 0 <= k) by (unfold k, e'; lia).
    assert (Hm' : m' = Z.pos m * 2 ^ k).
    { unfold m'. destruct k as [|n|n] eqn:Hkn; try lia.
      apply Z.shiftl_mul_pow2. lia. }
    assert (Hbound : m' <= 9007199252643840 * 2 ^ (- e')).
    { rewrite Hm'.
      assert (Hp : 2 ^ 21 * 2 ^ (- e') = 2 ^ k * 2 ^ (- e)).
      { rewrite <- !Z.pow_add_r by lia. f_equal. unfold k. lia. }
      assert (0 < 2 ^ k) by (apply Z.pow_pos_nonneg; lia).
      change (2 ^ 21) with 2097152 in Hp. nia. }
    pose proof (Z_div_mod m' 9007199252643840 eq_refl) as Hdiv.
    destruct (Z.div_eucl m' 9007199252643840) as [q r].
    destruct Hdiv as [Hq Hr].
    assert (Hm'0 : 0 <= m') by (rewrite Hm'; lia).
    assert (HD : 0 < 9007199252643840) by lia.
    set (X := 2 ^ (- e')) in *.
    generalize dependent 9007199252643840. intros D Hbound Hq Hr HD.
    destruct (quotient_bound m' D X q r Hm'0 HD Hbound Hq Hr) as [Hq0 Hcase].
    split; [apply binary_round_aux_nonneg; exact Hq0|].
    apply binary_round_aux_atmost;
      try (unfold SpecFloat.emin, prec, emax; lia).
    unfold below.
    split; [rewrite shr_record_of_loc_m; exact Hq0|]. split; [lia|].
    rewrite shr_record_of_loc_m, Z.sub_0_l, Z.mul_1_l. fold X.
    destruct Hcase as [Hlt|[Heq ->]]; [left; exact Hlt|right].
    split; [exact Heq|]. unfold new_location, new_location_even, new_location_odd.
    destruct (Z.even D); split; reflexivity.
Qed.

Lemma SFsub_half_atmost (r : spec_float) :
  sign_ok r -> atmost 1 0 r -> atmost 1 (-1) (SFsub prec emax r sf_half).
Proof.
  intros Hs Ha.
  destruct r as [s|[|]| |[|] m e]; cbn [sign_ok atmost] in *;
    try contradiction; try discriminate.
  - cbn. split; [lia|]. change (2 ^ (-1 - -53)) with 4503599627370496. lia.
  - destruct Ha as [He Hm]. rewrite Z.sub_0_l, Z.mul_1_l in Hm.
    unfold SFsub, sf_half. cbn [cond_Zopp].
    set (ez := Z.min e (-53)).
    pose proof (shl_align_value m e ez) as [_ Ha].
    pose proof (shl_align_value 4503599627370496 (-53) ez) as [_ Hb].
    rewrite shl_align_exponent in Ha, Hb by (unfold ez; lia).
    set (a := Z.pos (fst (shl_align m e ez))) in *.
    set (b := Z.pos (fst (shl_align 4503599627370496 (-53) ez))) in *.
    assert (Hb' : b = 2 ^ (-1 - ez)).
    { rewrite Hb. change 4503599627370496 with (2 ^ 52).
      rewrite <- Z.pow_add_r by (unfold ez; lia). f_equal. lia. }
    assert (Ha' : a <= 2 * b).
    { rewrite Hb', Ha, <- pow2_step by (unfold ez; lia).
      replace (-1 - ez + 1) with (- e + (e - ez)) by lia.
      rewrite Z.pow_add_r by (unfold ez; lia).
      assert (0 < 2 ^ (e - ez))
        by (apply Z.pow_pos_nonneg; unfold ez; lia). nia. }
    assert (Ha0 : 0 < a) by (unfold a; lia).
    destruct (a - b) as [|p|p] eqn:Hz; cbn [binary_normalize];
      [exact I| |];
      (apply binary_round_atmost;
       [lia|unfold SpecFloat.emin, prec, emax; lia|unfold ez; lia|
        rewrite Z.mul_1_l, <- Hb'; lia]).
Qed.

Lemma SFmul_two_atmost (r : spec_float) :
  atmost 1 (-1) r -> atmost 1 0 (SFmul prec emax r sf_two).
Proof.
  intros Ha. destruct r as [s| | |s m e]; cbn [atmost] in Ha;
    try contradiction; [exact I|].
  destruct Ha as [He Hm]. rewrite Z.mul_1_l in Hm.
  unfold SFmul, sf_two. apply binary_round_aux_atmost;
    try (unfold SpecFloat.emin, prec, emax; lia).
  apply below_of_exact; [lia|lia|].
  rewrite Pos2Z.inj_mul, Z.mul_1_l.
  replace (0 - (e + -51)) with (-1 - e + 52) by lia.
  rewrite Z.pow_add_r by lia. change (2 ^ 52) with 4503599627370496. nia.
Qed.

(** A binary64 number of magnitude at most 1 compares between -1 and 1. *)
Lemma atmost_one_range (v : float) :
  atmost 1 0 (Prim2SF v) ->
  (-1 <=? v)%float = true /\ (v <=? 1)%float = true.
Proof.
  intros Ha. rewrite !leb_spec.
  replace (Prim2SF 1) with (S754_finite false 4503599627370496 (-52))
    by (vm_compute; reflexivity).
  replace (Prim2SF (-1)) with (S754_finite true 4503599627370496 (-52))
    by (vm_compute; reflexivity).
  pose proof (Prim2SF_valid v) as Hv.
  destruct (Prim2SF v) as [s| | |s m e]; cbn [atmost] in Ha;
    try contradiction.
  - split; reflexivity.
  - destruct Ha as [He Hm]. rewrite Z.sub_0_l, Z.mul_1_l in Hm.
    cbn [valid_binary] in Hv. unfold bounded, canonical_mantissa in Hv.
    apply andb_prop in Hv as [Hc _]. apply Z.eqb_eq in Hc.
    pose proof (digits2_pos_bounds m) as [Hlow _].
    set (d := Z.pos (digits2_pos m)) in *.
    assert (Hd : d - 1 <= - e).
    { apply (Z.pow_le_mono_r_iff 2); lia. }
    assert (He52 : e <= -52).
    { unfold fexp, SpecFloat.emin, prec, emax in Hc. lia. }
    assert (Hm52 : e = -52 -> Z.pos m <= Z.pos 4503599627370496).
    { intros ->. exact Hm. }
    unfold SFleb, SFcompare. destruct s.
    + split; [|reflexivity].
      destruct (Z.compare_spec (-52) e) as [Heq|Hlt|Hgt];
        [|exfalso; clear - Hlt He52; lia|reflexivity].
      symmetry in Heq. specialize (Hm52 Heq).
      rewrite Pos.compare_cont_spec.
      destruct (Pos.compare_spec 4503599627370496 m) as [H|H|H];
        try reflexivity.
      apply Pos2Z.pos_lt_pos in H. exfalso. clear - Hm52 H. lia.
    + split; [reflexivity|].
      destruct (Z.compare_spec e (-52)) as [Heq|Hlt|Hgt];
        [|reflexivity|exfalso; clear - Hgt He52; lia].
      specialize (Hm52 Heq).
      rewrite Pos.compare_cont_spec.
      destruct (Pos.compare_spec m 4503599627370496) as [H|H|H];
        try reflexivity.
      apply Pos2Z.pos_lt_pos in H. exfalso. clear - Hm52 H. lia.
Qed.

(** [(u / 4294967295 - 0.5) * 2] lies between -1 and 1 for every unsigned
    32-bit integer [u]. *)
Lemma unit_draw_range (u : Z) :
  0 <= u <= 4294967295 ->
  let v := ((ofZ u / 4294967295 - 0.5) * 2)%float in
  (-1 <=? v)%float = true /\ (v <=? 1)%float = true.
Proof.
  intros Hu v. destruct (Z.eq_dec u 0) as [->|Hne].
  - vm_compute. split; reflexivity.
  - apply atmost_one_range. unfold v.
    rewrite mul_spec, sub_spec, div_spec.
    replace (Prim2SF 4294967295) with sf_max32 by (vm_compute; reflexivity).
    replace (Prim2SF 0.5) with sf_half by (vm_compute; reflexivity).
    replace (Prim2SF 2) with sf_two by (vm_compute; reflexivity).
    destruct (ofZ_atmost u ltac:(lia)) as [Hs Ha].
    destruct (SFdiv_max32_atmost u _ ltac:(lia) Hs Ha) as [Hs' Ha'].
    apply SFmul_two_atmost, SFsub_half_atmost; assumption.
Qed.

End FloatBounds.

(** A number between -1 and 1, both ends included, as the comparisons of
    binary64 decide it. *)
Definition inUnitRange (v : float) : Prop :=
  (-1 <=? v)%float = true /\ (v <=? 1)%float = true.

Lemma streamValues_in_unit_range (x0 : Z) (n : nat) :
  Forall inUnitRange (PopulationSpec.streamValues x0 n).
Proof.
  unfold PopulationSpec.streamValues. apply Forall_map, Forall_forall.
  intros j _. unfold PopulationSpec.draw.
  apply FloatBounds.unit_draw_range, drawInteger_range.
Qed.

(** X15: every number [generateInitialValues] produces lies between -1 and
    1, whatever the seed and the length: the quotient of an unsigned 32-bit
    integer by 2^32 - 1 rounds to at most 1, and subtracting 0.5 and
    doubling keeps the magnitude at most 1.  The array has the requested
    length. *)
Theorem generateInitialValues_in_unit_range (seed : Z) (n : nat) :
  length (generateInitialValues seed n) = n /\
  Forall inUnitRange (generateInitialValues seed n).
Proof.
  rewrite generateInitialValues_stream. split.
  - unfold PopulationSpec.streamValues. rewrite length_map, length_seq.
    reflexivity.
  - apply streamValues_in_unit_range.
Qed.

(** X16: on a valid count every slot of the population [makeInstances]
    returns holds an instance whose state starts with 64 values, all
    between -1 and 1, whichever construction strategy built it. *)
Theorem population_values_start_in_unit_range (clock : nat -> Z)
    (approach : string) (count : Z) (retained : list Instance) :
  0 <= count < 4294967296 ->
  exists made retained',
    makeInstances clock {| MakeInstances.approach := approach;
                           MakeInstances.count := count |} retained =
      Some (made, retained') /\
    length made = Z.to_nat count /\
    Forall (fun slot =>
              exists inst, slot = Some inst /\
                length (values (viewInstance inst)) = 64%nat /\
                Forall inUnitRange (values (viewInstance inst))) made.
Proof.
  intros Hcount.
  rewrite (PopulationFacts.makeInstances_population clock approach count
             retained Hcount).
  eexists _, _. split; [reflexivity|]. split.
  - rewrite length_map, length_seq. reflexivity.
  - apply Forall_map, Forall_forall. intros i _.
    eexists. split; [reflexivity|].
    rewrite PopulationFacts.view_construct.
    cbn [values PopulationSpec.seedRecord]. split.
    + unfold PopulationSpec.streamValues. rewrite length_map, length_seq.
      reflexivity.
    + apply streamValues_in_unit_range.
Qed.

Lemma population_values_start_in_unit_range_witness :
  exists made retained',
    makeInstances (fun _ => 0) {| MakeInstances.approach := "factory";
                                  MakeInstances.count := 2 |} [] =
      Some (made, retained') /\
    length made = Z.to_nat 2 /\
    Forall (fun slot =>
              exists inst, slot = Some inst /\
                length (values (viewInstance inst)) = 64%nat /\
                Forall inUnitRange (values (viewInstance inst))) made.
Proof.
  apply (population_values_start_in_unit_range (fun _ => 0) "factory" 2 []).
  lia.
Defined.
